(** * CalReal Deals: deal scoring and the AB 1482 rent-cap helper

    A shallow embedding of the two computation modules of the repository
    (the deal scorer and the rent-cap helper) and the properties their
    specification states about them.

    A JavaScript [number] is an IEEE 754 binary64 value, which is what
    Rocq's primitive [float] is: arithmetic, comparisons, NaN, the two
    infinities and the two zeros are the ones the program runs on, and a
    decimal literal denotes the same nearest binary64 value in both.

    The year [new Date().getFullYear()] returns is a variable of the
    sections that read it.  Template literals are kept as lists of chunks,
    the numbers in them unconverted.

    The database functions of the schema and the filters of the discovery
    page are embedded after the two modules, each with the reading of its
    own data. *)

From Stdlib Require Import ZArith Floats List String Bool Lia.
Import ListNotations.

Set Warnings "-inexact-float".

#[local] Open Scope string_scope.
#[local] Open Scope float_scope.

(** ** ECMAScript operations on numbers *)

Module JS.

Notation "x >=? y" := (PrimFloat.leb y x)
  (at level 70, no associativity, only parsing) : float_scope.
Notation "x >? y" := (PrimFloat.ltb y x)
  (at level 70, no associativity, only parsing) : float_scope.

(** [ToBoolean] of a number: false for [+0], [-0] and [NaN]. *)
Definition ToBoolean (x : float) : bool := negb (is_nan x || is_zero x).

(** An optional property ([field?: number]) is [undefined] or a number;
    [undefined] is falsy. *)
Definition truthy (o : option float) : bool :=
  match o with
  | Some x => ToBoolean x
  | None => false
  end.

(** [o || d] on an optional number. *)
Definition or_else (o : option float) (d : float) : float :=
  match o with
  | Some x => if ToBoolean x then x else d
  | None => d
  end.

Definition is_pos_zero (x : float) : bool := is_zero x && negb (get_sign x).
Definition is_neg_zero (x : float) : bool := is_zero x && get_sign x.

(** [Math.max] and [Math.min] of two numbers: NaN if either is NaN, and
    [-0] counts as smaller than [+0]. *)
Definition Math_max (a b : float) : float :=
  if is_nan a || is_nan b then nan
  else if (a <? b) || (is_pos_zero b && is_neg_zero a) then b
  else a.

Definition Math_min (a b : float) : float :=
  if is_nan a || is_nan b then nan
  else if (b <? a) || (is_neg_zero b && is_pos_zero a) then b
  else a.

(** [lo <= x && x <= hi] as the program would test it. *)
Definition in_range (lo hi x : float) : bool := (lo <=? x) && (x <=? hi).

(** A number that is neither NaN, infinite nor a zero. *)
Definition finite_nonzero (x : float) : bool := is_finite x && negb (is_zero x).

(** A template literal, kept as its chunks: the literal text and the
    interpolated numbers, each with the conversion the source applies. *)
Inductive chunk : Type :=
| Lit (s : string)
| Num (x : float)
| Fixed (x : float) (digits : nat)
| Locale (x : float).

Definition template : Type := list chunk.

(** [${o || 'N/A'}] *)
Definition or_NA (o : option float) : chunk :=
  match o with
  | Some x => if ToBoolean x then Num x else Lit "N/A"
  | None => Lit "N/A"
  end.

Definition lower_ascii (c : Ascii.ascii) : Ascii.ascii :=
  let n := Ascii.nat_of_ascii c in
  if (Nat.leb 65 n && Nat.leb n 90)%bool then Ascii.ascii_of_nat (n + 32) else c.

Fixpoint toLowerCase (s : string) : string :=
  match s with
  | EmptyString => EmptyString
  | String c s' => String (lower_ascii c) (toLowerCase s')
  end.

End JS.

Import JS.

(** ** rent-cap-helper: AB 1482 eligibility and rent increases *)

Module RentCap.

Record RentCapInfo : Type := {
  isEligible : bool;
  maxIncreasePercentage : float;
  currentYear : float;
  yearBuilt : float;
  propertyAge : float;
  exemptionReasons : list template;
  nextYearCap : float
}.

Definition CURRENT_INFLATION_RATE : float := 3.4.

Module MaxRentIncrease.
Record t : Type := {
  maxIncrease : float;
  maxNewRent : float;
  increasePercentage : float;
  isEligible : bool
}.
End MaxRentIncrease.

Module Boost.
Record t : Type := {
  boostScore : float;
  annualValue : float;
  fiveYearValue : float;
  reasoning : template
}.
End Boost.

Section Clock.

(** The year [new Date().getFullYear()] returns, pinned for one evaluation. *)
Variable getFullYear : float.

Definition checkRentCapEligibility (yearBuilt : float) : RentCapInfo :=
  let currentYear := getFullYear in
  let propertyAge := currentYear - yearBuilt in
  let isEligible := propertyAge >=? 15 in
  let exemptionReasons : list template := [] in
  let exemptionReasons :=
    if negb isEligible
    then (exemptionReasons ++
          [[Lit "Property is only "; Num propertyAge; Lit " years old (must be 15+ years)"]])%list
    else exemptionReasons in
  let maxIncreasePercentage := if isEligible then 5.0 + CURRENT_INFLATION_RATE else 0 in
  let nextYearCap := if isEligible then 5.0 + (CURRENT_INFLATION_RATE * 0.9) else 0 in
  {| isEligible := isEligible;
     maxIncreasePercentage := maxIncreasePercentage;
     currentYear := currentYear;
     yearBuilt := yearBuilt;
     propertyAge := propertyAge;
     exemptionReasons := exemptionReasons;
     nextYearCap := nextYearCap |}.

Definition calculateMaxRentIncrease
  (currentRent yearBuilt : float) (inflationRate : option float) : MaxRentIncrease.t :=
  let rentCapInfo := checkRentCapEligibility yearBuilt in
  let inflation := or_else inflationRate CURRENT_INFLATION_RATE in
  if negb (isEligible rentCapInfo) then
    {| MaxRentIncrease.maxIncrease := 0;
       MaxRentIncrease.maxNewRent := currentRent;
       MaxRentIncrease.increasePercentage := 0;
       MaxRentIncrease.isEligible := false |}
  else
    let increasePercentage := 5.0 + inflation in
    let maxIncrease := currentRent * (increasePercentage / 100) in
    let maxNewRent := currentRent + maxIncrease in
    {| MaxRentIncrease.maxIncrease := maxIncrease;
       MaxRentIncrease.maxNewRent := maxNewRent;
       MaxRentIncrease.increasePercentage := increasePercentage;
       MaxRentIncrease.isEligible := true |}.

Definition calculateRentStabilizationBoost
  (yearBuilt currentMarketRent potentialRentIncrease : float) : Boost.t :=
  let rentCapInfo := checkRentCapEligibility yearBuilt in
  if negb (isEligible rentCapInfo) then
    {| Boost.boostScore := 0;
       Boost.annualValue := 0;
       Boost.fiveYearValue := 0;
       Boost.reasoning := [Lit "Property not eligible for rent stabilization benefits"] |}
  else
    let marketVolatilityPremium := 0.08 in
    let stabilizedIncrease := maxIncreasePercentage rentCapInfo / 100 in
    let volatilityBenefit := marketVolatilityPremium - stabilizedIncrease in
    let annualValue := currentMarketRent * volatilityBenefit in
    let fiveYearValue := annualValue * 5 in
    let boostScore := Math_min 20 (Math_max 0 ((annualValue / currentMarketRent) * 100)) in
    let reasoning :=
      [Lit "Rent stabilization provides predictable ";
       Fixed (maxIncreasePercentage rentCapInfo) 1;
       Lit "% annual increases vs estimated ";
       Num (marketVolatilityPremium * 100);
       Lit "% market volatility, creating ";
       Fixed annualValue 0;
       Lit " annual value advantage."] in
    {| Boost.boostScore := boostScore;
       Boost.annualValue := annualValue;
       Boost.fiveYearValue := fiveYearValue;
       Boost.reasoning := reasoning |}.

End Clock.

End RentCap.

(** ** deal-scoring: the 0-100 deal score and its breakdown *)

Module DealScore.

Import RentCap.

Inductive PropertyType : Type :=
| single_family
| condo
| townhouse
| multi_family.

Record PropertyMetrics : Type := {
  price : float;
  sqft : float;
  beds : float;
  baths : float;
  yearBuilt : float;
  propertyType : PropertyType;
  latitude : float;
  longitude : float
}.

Record NeighborhoodData : Type := {
  medianPricePerSqft : float;
  medianPrice : float;
  avgSqft : float;
  avgBeds : float;
  avgBaths : float;
  avgYearBuilt : float;
  priceAppreciationRate : option float;
  rentalYield : option float;
  walkScore : option float;
  transitScore : option float;
  crimeRate : option float;
  schoolRating : option float
}.

Record BreakdownEntry : Type := {
  component : string;
  score : float;
  maxScore : float;
  explanation : template
}.

Record DealScoreBreakdown : Type := {
  totalScore : float;
  priceAdvantage : float;
  sizeAdvantage : float;
  ageAdvantage : float;
  rentStabilizationBonus : float;
  locationBonus : float;
  marketTimingBonus : float;
  breakdown : list BreakdownEntry
}.

Definition calculatePriceAdvantage
  (property : PropertyMetrics) (neighborhood : NeighborhoodData) : float :=
  let propertyPricePerSqft := price property / sqft property in
  let priceRatio := propertyPricePerSqft / medianPricePerSqft neighborhood in
  if priceRatio <=? 0.8 then 40
  else if priceRatio <=? 0.9 then 35
  else if priceRatio <=? 0.95 then 30
  else if priceRatio <=? 1.0 then 25
  else if priceRatio <=? 1.05 then 20
  else if priceRatio <=? 1.1 then 15
  else if priceRatio <=? 1.2 then 10
  else 5.

Definition calculateSizeAdvantage
  (property : PropertyMetrics) (neighborhood : NeighborhoodData) : float :=
  let score := 7.5 in
  let sizeRatio := sqft property / avgSqft neighborhood in
  let score :=
    if sizeRatio >=? 1.2 then score + 4
    else if sizeRatio >=? 1.1 then score + 3
    else if sizeRatio >=? 1.0 then score + 2
    else if sizeRatio >=? 0.9 then score + 1
    else score - 2 in
  let bedBathRatio := beds property / baths property in
  let score :=
    if (bedBathRatio >=? 1) && (bedBathRatio <=? 2) then score + 2
    else if bedBathRatio >? 2 then score - 1
    else score in
  let score :=
    match propertyType property with
    | single_family => score + 2
    | townhouse => score + 1
    | _ => score
    end in
  Math_min 15 (Math_max 0 score).

Definition calculateLocationBonus (neighborhood : NeighborhoodData) : float :=
  let score := 5 in
  let score :=
    match walkScore neighborhood with
    | Some walk =>
        if ToBoolean walk then
          if walk >=? 90 then score + 3
          else if walk >=? 70 then score + 2
          else if walk >=? 50 then score + 1
          else score
        else score
    | None => score
    end in
  let score :=
    match schoolRating neighborhood with
    | Some school =>
        if ToBoolean school then
          if school >=? 8 then score + 2
          else if school >=? 6 then score + 1
          else score
        else score
    | None => score
    end in
  let score :=
    match crimeRate neighborhood with
    | Some crime =>
        if ToBoolean crime then
          if crime <=? 20 then score + 2
          else if crime <=? 40 then score + 1
          else score
        else score
    | None => score
    end in
  let score :=
    match transitScore neighborhood with
    | Some transit =>
        if ToBoolean transit then
          if transit >=? 70 then score + 1 else score
        else score
    | None => score
    end in
  Math_min 10 (Math_max 0 score).

Definition calculateMarketTimingBonus (neighborhood : NeighborhoodData) : float :=
  let score := 5 in
  let score :=
    match priceAppreciationRate neighborhood with
    | Some rate =>
        if ToBoolean rate then
          if rate >=? 8 then score + 3
          else if rate >=? 5 then score + 2
          else if rate >=? 3 then score + 1
          else if rate <? 0 then score - 2
          else score
        else score
    | None => score
    end in
  let score :=
    match rentalYield neighborhood with
    | Some yield =>
        if ToBoolean yield then
          if yield >=? 6 then score + 2
          else if yield >=? 4 then score + 1
          else score
        else score
    | None => score
    end in
  Math_min 10 (Math_max 0 score).

Record Category : Type := {
  category : string;
  color : string;
  description : string;
  recommendation : string
}.

Definition getDealScoreCategory (score : float) : Category :=
  if score >=? 90 then
    {| category := "Excellent Deal";
       color := "green";
       description := "Outstanding value with strong investment potential";
       recommendation := "Act quickly - these deals are rare and competitive" |}
  else if score >=? 80 then
    {| category := "Great Deal";
       color := "blue";
       description := "Significantly undervalued with good fundamentals";
       recommendation := "Strong consideration - schedule viewing ASAP" |}
  else if score >=? 70 then
    {| category := "Good Deal";
       color := "yellow";
       description := "Fairly priced with some advantages";
       recommendation := "Worth investigating further" |}
  else if score >=? 60 then
    {| category := "Average Deal";
       color := "orange";
       description := "Market price with typical features";
       recommendation := "Consider if it meets specific needs" |}
  else
    {| category := "Poor Deal";
       color := "red";
       description := "Overpriced or lacking key features";
       recommendation := "Pass unless there are compelling reasons" |}.

Module Recommendation.
Record t : Type := {
  recommendation : string;
  reasoning : template;
  risks : list string;
  opportunities : list string
}.
End Recommendation.

(** [arr.push(x)] when [c] holds, the array unchanged otherwise. *)
Definition push_if (c : bool) (x : string) (arr : list string) : list string :=
  if c then (arr ++ [x])%list else arr.

Section Clock.

Variable getFullYear : float.

Definition calculateAgeAdvantage
  (property : PropertyMetrics) (neighborhood : NeighborhoodData) : float :=
  let currentYear := getFullYear in
  let propertyAge := currentYear - yearBuilt property in
  let neighborhoodAge := currentYear - avgYearBuilt neighborhood in
  let score := 10 in
  let score :=
    if propertyAge >? neighborhoodAge + 20 then score + 5
    else if propertyAge >? neighborhoodAge + 10 then score + 3
    else if propertyAge >? neighborhoodAge - 5 then score + 1
    else score - 2 in
  let score :=
    if propertyAge >=? 50 then score + 3
    else if propertyAge >=? 30 then score + 2
    else score in
  Math_min 15 (Math_max 0 score).

Definition calculateRentStabilizationBonusValue
  (property : PropertyMetrics) (neighborhood : NeighborhoodData) : float :=
  let currentYear := getFullYear in
  let propertyAge := currentYear - yearBuilt property in
  if propertyAge <? 15 then 0
  else
    let estimatedMarketRent := (price property * 0.008) / 12 in
    let rentStabilizationBoost :=
      calculateRentStabilizationBoost getFullYear
        (yearBuilt property) estimatedMarketRent (0.05 + 0.034) in
    Math_min 10 (Boost.boostScore rentStabilizationBoost / 2).

Definition calculateDealScore
  (property : PropertyMetrics) (neighborhood : NeighborhoodData)
  (nearbyProperties : option (list PropertyMetrics)) : DealScoreBreakdown :=
  let breakdown : list BreakdownEntry := [] in
  let totalScore := 0 in
  (* 1. Price Advantage (40 points) *)
  let priceAdvantage := calculatePriceAdvantage property neighborhood in
  let breakdown := (breakdown ++ [
    {| component := "Price Advantage";
       score := priceAdvantage;
       maxScore := 40;
       explanation :=
         [Lit "Property at $"; Fixed (price property / sqft property) 0;
          Lit "/sqft vs neighborhood avg $";
          Fixed (medianPricePerSqft neighborhood) 0; Lit "/sqft"] |}])%list in
  let totalScore := totalScore + priceAdvantage in
  (* 2. Size & Layout Advantage (15 points) *)
  let sizeAdvantage := calculateSizeAdvantage property neighborhood in
  let breakdown := (breakdown ++ [
    {| component := "Size & Layout";
       score := sizeAdvantage;
       maxScore := 15;
       explanation :=
         [Num (beds property); Lit "bed/"; Num (baths property); Lit "bath, ";
          Num (sqft property); Lit "sqft vs neighborhood averages"] |}])%list in
  let totalScore := totalScore + sizeAdvantage in
  (* 3. Age & Rent Stabilization (25 points) *)
  let ageAdvantage := calculateAgeAdvantage property neighborhood in
  let rentStabilizationBonus :=
    calculateRentStabilizationBonusValue property neighborhood in
  let breakdown := (breakdown ++ [
    {| component := "Age & Rent Stabilization";
       score := ageAdvantage + rentStabilizationBonus;
       maxScore := 25;
       explanation :=
         [Lit "Built "; Num (yearBuilt property);
          Lit ", rent stabilization bonus: "; Fixed rentStabilizationBonus 1;
          Lit "pts"] |}])%list in
  let totalScore := totalScore + (ageAdvantage + rentStabilizationBonus) in
  (* 4. Location & Amenities (10 points) *)
  let locationBonus := calculateLocationBonus neighborhood in
  let breakdown := (breakdown ++ [
    {| component := "Location & Amenities";
       score := locationBonus;
       maxScore := 10;
       explanation :=
         [Lit "Walk score: "; or_NA (walkScore neighborhood);
          Lit ", schools: "; or_NA (schoolRating neighborhood)] |}])%list in
  let totalScore := totalScore + locationBonus in
  (* 5. Market Timing (10 points) *)
  let marketTimingBonus := calculateMarketTimingBonus neighborhood in
  let breakdown := (breakdown ++ [
    {| component := "Market Timing";
       score := marketTimingBonus;
       maxScore := 10;
       explanation :=
         [Lit "Market appreciation: "; or_NA (priceAppreciationRate neighborhood);
          Lit "%, rental yield: "; or_NA (rentalYield neighborhood); Lit "%"] |}])%list in
  let totalScore := totalScore + marketTimingBonus in
  {| totalScore := Math_min 100 (Math_max 0 totalScore);
     priceAdvantage := priceAdvantage;
     sizeAdvantage := sizeAdvantage;
     ageAdvantage := ageAdvantage;
     rentStabilizationBonus := rentStabilizationBonus;
     locationBonus := locationBonus;
     marketTimingBonus := marketTimingBonus;
     breakdown := breakdown |}.

(** Reading [breakdown[i]] past the end gives [undefined], and reading a
    property of [undefined] throws: [None] stands for that TypeError. *)
Definition generateInvestmentRecommendation
  (dealScore : DealScoreBreakdown) (property : PropertyMetrics)
  (neighborhood : NeighborhoodData) : option Recommendation.t :=
  let category := getDealScoreCategory (totalScore dealScore) in
  let risks : list string := [] in
  let opportunities : list string := [] in
  let risks :=
    push_if (priceAdvantage dealScore <? 20)
      "Property may be overpriced compared to neighborhood" risks in
  let risks :=
    push_if (yearBuilt property >? getFullYear - 5)
      "New construction may have premium pricing" risks in
  let risks :=
    push_if (match crimeRate neighborhood with
             | Some crime => ToBoolean crime && (crime >? 50)
             | None => false
             end)
      "Higher crime rate in area" risks in
  let risks :=
    push_if (match priceAppreciationRate neighborhood with
             | Some rate => ToBoolean rate && (rate <? 2)
             | None => false
             end)
      "Low appreciation potential" risks in
  let opportunities :=
    push_if (rentStabilizationBonus dealScore >? 5)
      "Rent stabilization provides predictable cash flow" opportunities in
  let opportunities :=
    push_if (locationBonus dealScore >? 7)
      "Excellent location with strong amenities" opportunities in
  let opportunities :=
    push_if (match priceAppreciationRate neighborhood with
             | Some rate => ToBoolean rate && (rate >? 6)
             | None => false
             end)
      "High neighborhood appreciation potential" opportunities in
  let opportunities :=
    push_if (match rentalYield neighborhood with
             | Some yield => ToBoolean yield && (yield >? 5)
             | None => false
             end)
      "Strong rental yield for investment" opportunities in
  match nth_error (breakdown dealScore) 0, nth_error (breakdown dealScore) 1 with
  | Some b0, Some b1 =>
      let reasoning :=
        [Lit "Based on a "; Fixed (totalScore dealScore) 1;
         Lit "/100 deal score, this property ";
         Lit (toLowerCase (description category));
         Lit ". Key factors include ";
         Lit (toLowerCase (component b0)); Lit " (";
         Fixed (score b0) 1; Lit "/"; Num (maxScore b0); Lit " points) and ";
         Lit (toLowerCase (component b1)); Lit " (";
         Fixed (score b1) 1; Lit "/"; Num (maxScore b1); Lit " points)."] in
      Some {| Recommendation.recommendation := recommendation category;
              Recommendation.reasoning := reasoning;
              Recommendation.risks := risks;
              Recommendation.opportunities := opportunities |}
  | _, _ => None
  end.

End Clock.

End DealScore.

(** ** Sample inputs

    The end-to-end example of the specification: a 1000 sqft house of 1960
    listed at 800000 in a neighborhood whose median is 1000 per sqft. *)

Module Samples.

Import DealScore.

Definition house : PropertyMetrics :=
  {| price := 800000; sqft := 1000; beds := 3; baths := 2; yearBuilt := 1960;
     propertyType := single_family; latitude := 34.05; longitude := -118.25 |}.

Definition area : NeighborhoodData :=
  {| medianPricePerSqft := 1000; medianPrice := 900000; avgSqft := 1000;
     avgBeds := 3; avgBaths := 2; avgYearBuilt := 1980;
     priceAppreciationRate := None; rentalYield := None; walkScore := None;
     transitScore := None; crimeRate := None; schoolRating := None |}.

Definition with_price (x : float) (p : PropertyMetrics) : PropertyMetrics :=
  {| price := x; sqft := sqft p; beds := beds p; baths := baths p;
     yearBuilt := yearBuilt p; propertyType := propertyType p;
     latitude := latitude p; longitude := longitude p |}.

Definition with_rooms (nbeds nbaths : float) (p : PropertyMetrics) : PropertyMetrics :=
  {| price := price p; sqft := sqft p; beds := nbeds; baths := nbaths;
     yearBuilt := yearBuilt p; propertyType := propertyType p;
     latitude := latitude p; longitude := longitude p |}.

Definition with_crimeRate (c : option float) (n : NeighborhoodData) : NeighborhoodData :=
  {| medianPricePerSqft := medianPricePerSqft n; medianPrice := medianPrice n;
     avgSqft := avgSqft n; avgBeds := avgBeds n; avgBaths := avgBaths n;
     avgYearBuilt := avgYearBuilt n;
     priceAppreciationRate := priceAppreciationRate n; rentalYield := rentalYield n;
     walkScore := walkScore n; transitScore := transitScore n;
     crimeRate := c; schoolRating := schoolRating n |}.

End Samples.

(** ** Strings

    A string is kept as the sequence of the bytes of its UTF-8 encoding;
    for ASCII text these are its characters, and [toLowerCase] above is the
    one of ECMAScript on them. *)

Module JSString.

(** [s.includes(p)]: [p] occurs in [s] at some position. *)
Fixpoint includes (s p : string) : bool :=
  prefix p s ||
  match s with
  | EmptyString => false
  | String _ s' => includes s' p
  end.

(** The line feed of ["\n"]. *)
Definition nl : string := String (Ascii.ascii_of_nat 10) EmptyString.

(** [ToBoolean] of a string: false for the empty string only. *)
Definition nonempty (s : string) : bool :=
  match s with
  | EmptyString => false
  | String _ _ => true
  end.

(** A parameter with a default value: [undefined] takes the default. *)
Definition or_default {A : Type} (o : option A) (d : A) : A :=
  match o with
  | Some a => a
  | None => d
  end.

End JSString.

Import JSString.

(** ** rent-cap-helper: further exemptions and the notice text *)

Module RentCapText.

Import RentCap.

Module Exemptions.
Record t : Type := {
  hasExemptions : bool;
  exemptionReasons : list string;
  isSubjectToAB1482 : bool
}.
End Exemptions.

Definition checkAdditionalExemptions
  (propertyType : string) (isSingleFamily ownerOccupied recentlyBuilt : bool)
  : Exemptions.t :=
  let exemptionReasons : list string := [] in
  let exemptionReasons :=
    DealScore.push_if (isSingleFamily && negb ownerOccupied)
      "Single-family home owned by small landlord (≤2 properties)" exemptionReasons in
  let exemptionReasons :=
    DealScore.push_if recentlyBuilt
      "Recently constructed property" exemptionReasons in
  let exemptionReasons :=
    DealScore.push_if
      (includes (toLowerCase propertyType) "dorm"
       || includes (toLowerCase propertyType) "school")
      "Educational institution housing" exemptionReasons in
  let exemptionReasons :=
    DealScore.push_if
      (includes (toLowerCase propertyType) "hotel"
       || includes (toLowerCase propertyType) "motel")
      "Transient lodging" exemptionReasons in
  let exemptionReasons :=
    DealScore.push_if
      (includes (toLowerCase propertyType) "nonprofit"
       || includes (toLowerCase propertyType) "affordable")
      "Restricted affordable housing" exemptionReasons in
  let hasExemptions := Nat.ltb 0 (List.length exemptionReasons) in
  let isSubjectToAB1482 := negb hasExemptions in
  {| Exemptions.hasExemptions := hasExemptions;
     Exemptions.exemptionReasons := exemptionReasons;
     Exemptions.isSubjectToAB1482 := isSubjectToAB1482 |}.

Module Notice.
Record t : Type := {
  notice : template;
  isEligible : bool;
  maxIncrease : float;
  complianceNotes : list string
}.
End Notice.

Section Clock.

Variable getFullYear : float.

(** [notice += ...] appends the chunks of the right-hand side; the
    [forEach] over the exemption reasons is a left fold. *)
Definition generateRentCapNotice
  (currentRent yearBuilt : float) (propertyType : string)
  (isSingleFamily ownerOccupied : option bool) : Notice.t :=
  let isSingleFamily := or_default isSingleFamily false in
  let ownerOccupied := or_default ownerOccupied false in
  let rentCapInfo := checkRentCapEligibility getFullYear yearBuilt in
  let exemptionCheck :=
    checkAdditionalExemptions propertyType isSingleFamily ownerOccupied
      (yearBuilt >? 2009) in
  let increaseCalc := calculateMaxRentIncrease getFullYear currentRent yearBuilt None in
  let complianceNotes : list string := [] in
  let notice : template := [] in
  let '(notice, complianceNotes) :=
    if negb (isEligible rentCapInfo) || Exemptions.hasExemptions exemptionCheck then
      let notice :=
        [Lit ("⚠️ This property may be exempt from AB 1482 rent cap regulations."
              ++ nl ++ nl)] in
      let notice :=
        if negb (isEligible rentCapInfo) then
          (notice ++
           [Lit "Property Age Exemption: Built in "; Num yearBuilt; Lit " (";
            Num (propertyAge rentCapInfo); Lit (" years old)" ++ nl)] ++
           [Lit ("AB 1482 applies to properties 15+ years old." ++ nl ++ nl)])%list
        else notice in
      if Exemptions.hasExemptions exemptionCheck then
        let notice := (notice ++ [Lit ("Additional Exemptions:" ++ nl)])%list in
        let notice :=
          fold_left
            (fun notice reason => (notice ++ [Lit "• "; Lit reason; Lit nl])%list)
            (Exemptions.exemptionReasons exemptionCheck) notice in
        (notice,
         (complianceNotes ++
          ["Consult with legal counsel to confirm exemption status"])%list)
      else (notice, complianceNotes)
    else
      let notice :=
        [Lit ("✅ This property is subject to AB 1482 rent cap regulations."
              ++ nl ++ nl)] in
      let notice :=
        (notice ++ [Lit "Current Rent: $"; Locale currentRent; Lit nl])%list in
      let notice :=
        (notice ++
         [Lit "Maximum Annual Increase: ";
          Fixed (MaxRentIncrease.increasePercentage increaseCalc) 1;
          Lit ("%" ++ nl)])%list in
      let notice :=
        (notice ++
         [Lit "Maximum Increase Amount: $";
          Fixed (MaxRentIncrease.maxIncrease increaseCalc) 2; Lit nl])%list in
      let notice :=
        (notice ++
         [Lit "Maximum New Rent: $";
          Locale (MaxRentIncrease.maxNewRent increaseCalc); Lit (nl ++ nl)])%list in
      (notice,
       (((complianceNotes ++
          ["Provide proper 90-day notice for rent increases"]) ++
         ["Include AB 1482 compliance information in notice"]) ++
        ["Keep documentation of inflation rate calculation"])%list) in
  let notice := (notice ++ [Lit (nl ++ "---" ++ nl)])%list in
  let notice :=
    (notice ++
     [Lit "This is for informational purposes only. Consult with legal counsel for specific compliance requirements."])%list in
  {| Notice.notice := notice;
     Notice.isEligible :=
       isEligible rentCapInfo && negb (Exemptions.hasExemptions exemptionCheck);
     Notice.maxIncrease := MaxRentIncrease.maxIncrease increaseCalc;
     Notice.complianceNotes := complianceNotes |}.

End Clock.

End RentCapText.

(** ** schema.sql: the database's own deal score, eligibility and trigger

    [DECIMAL] values are exact rationals, [INTEGER] values integers, and
    any argument or column may be [NULL] ([None]).  Sums, differences and
    products of [DECIMAL] values are exact; a quotient is rounded by the
    server to a scale it selects, and a value stored in a [DECIMAL(5,2)]
    column to two decimals: both roundings are variables of the section, as
    are the year [EXTRACT(YEAR FROM NOW())] and the content of
    [neighborhood_stats].  Dividing a value by zero raises
    [division_by_zero]; dividing [NULL], or by [NULL], gives [NULL]. *)

From Stdlib Require QArith Lqa.

Module Schema.

Import QArith.

#[local] Open Scope Q_scope.

Inductive result (A : Type) : Type :=
| Ok (a : A)
| division_by_zero.

Arguments Ok {A} a.
Arguments division_by_zero {A}.

Definition bind {A B : Type} (r : result A) (f : A -> result B) : result B :=
  match r with
  | Ok a => f a
  | division_by_zero => division_by_zero
  end.

(** [GREATEST] and [LEAST] of a constant and a value: a [NULL] is ignored. *)
Definition GREATEST (c : Q) (x : option Q) : Q :=
  match x with
  | Some v => if Qle_bool c v then v else c
  | None => c
  end.

Definition LEAST (c : Q) (x : Q) : Q := if Qle_bool x c then x else c.

(** A comparison with [NULL] is [NULL], which no [IF] or [WHEN] takes. *)
Definition lt_int (a b : option Z) : bool :=
  match a, b with
  | Some x, Some y => (x <? y)%Z
  | _, _ => false
  end.

Definition is_true (b : option bool) : bool :=
  match b with
  | Some true => true
  | _ => false
  end.

(** The columns of [properties]. *)
Record properties : Type := {
  id : option string;
  address : option string;
  city : option string;
  state : option string;
  zip_code : option string;
  price : option Q;
  sqft : option Z;
  beds : option Z;
  baths : option Q;
  latitude : option Q;
  longitude : option Q;
  year_built : option Z;
  property_type : option string;
  listing_url : option string;
  listing_source : option string;
  neighborhood_id : option string;
  deal_score : option Q;
  price_per_sqft : option Q;
  is_rent_stabilized : option bool;
  rent_cap_percentage : option Q;
  created_at : option Z;
  updated_at : option Z
}.

(** [NEW.deal_score = s; NEW.is_rent_stabilized = b; NEW.rent_cap_percentage = c] *)
Definition set_metrics (NEW : properties) (s : option Q) (b : option bool)
  (c : option Q) : properties :=
  {| id := id NEW; address := address NEW; city := city NEW; state := state NEW;
     zip_code := zip_code NEW; price := price NEW; sqft := sqft NEW;
     beds := beds NEW; baths := baths NEW; latitude := latitude NEW;
     longitude := longitude NEW; year_built := year_built NEW;
     property_type := property_type NEW; listing_url := listing_url NEW;
     listing_source := listing_source NEW; neighborhood_id := neighborhood_id NEW;
     deal_score := s; price_per_sqft := price_per_sqft NEW;
     is_rent_stabilized := b; rent_cap_percentage := c;
     created_at := created_at NEW; updated_at := updated_at NEW |}.

Section Server.

(** [EXTRACT(YEAR FROM NOW())] *)
Variable now_year : Z.

(** The rounded quotient of two [DECIMAL] values, the divisor not zero. *)
Variable numeric_div : Q -> Q -> Q.

(** The value a [DECIMAL(5,2)] column keeps of a score. *)
Variable to_decimal_5_2 : Q -> Q.

(** [SELECT median_price_per_sqft FROM neighborhood_stats WHERE id = ...] *)
Variable median_price_per_sqft_of : string -> option Q.

Definition divide (a b : option Q) : result (option Q) :=
  match a, b with
  | Some x, Some y =>
      if Qeq_bool y 0 then division_by_zero else Ok (Some (numeric_div x y))
  | _, _ => Ok None
  end.

Definition calculate_deal_score
  (p_price : option Q) (p_sqft : option Z)
  (p_neighborhood_median_price_per_sqft : option Q)
  (p_year_built : option Z) (p_is_rent_stabilized : option bool) : result Q :=
  let base_score : Q := 50.0 in
  bind
    (if match p_neighborhood_median_price_per_sqft with
        | Some m => negb (Qle_bool m 0)
        | None => false
        end
     then
       bind (divide p_price (option_map inject_Z p_sqft))
            (fun q => divide q p_neighborhood_median_price_per_sqft)
     else Ok (Some 1.0))
    (fun price_ratio =>
       let age_factor : Q :=
         if lt_int p_year_built (Some (now_year - 50)%Z) then 15.0
         else if lt_int p_year_built (Some (now_year - 30)%Z) then 10.0
         else if lt_int p_year_built (Some (now_year - 15)%Z) then 5.0
         else 0.0 in
       let rent_stabilization_bonus : Q :=
         if is_true p_is_rent_stabilized then 20.0 else 0.0 in
       Ok (LEAST 100.0 (GREATEST 0.0
             (option_map
                (fun r => base_score + (1.0 - r) * 30.0 + age_factor
                          + rent_stabilization_bonus)
                price_ratio)))).

Definition check_rent_cap_eligibility (p_year_built : option Z) : option bool :=
  option_map (fun y => (y <? now_year - 15)%Z) p_year_built.

Definition update_property_metrics (NEW : properties) : result properties :=
  let neighborhood_median :=
    match neighborhood_id NEW with
    | Some i => median_price_per_sqft_of i
    | None => None
    end in
  bind
    (match neighborhood_median with
     | Some m => Ok (Some m)
     | None => divide (price NEW) (option_map inject_Z (sqft NEW))
     end)
    (fun median =>
       bind
         (calculate_deal_score (price NEW) (sqft NEW) median (year_built NEW)
            (is_rent_stabilized NEW))
         (fun score =>
            let stabilized := check_rent_cap_eligibility (year_built NEW) in
            Ok (set_metrics NEW (Some (to_decimal_5_2 score)) stabilized
                  (if is_true stabilized then Some 5.0 else None)))).

End Server.

End Schema.

(** ** discovery page: the filters over the listed properties

    [applyFilters] reads the component's state and hands the filtered list
    to [setFilteredProperties]: the state is an argument and the list the
    result.  The conversion [Number(s)] of a text field is a variable of the
    section. *)

Module Discovery.

(** [Database['public']['Tables']['properties']['Row']] *)
Record Property : Type := {
  id : string;
  address : string;
  city : string;
  state : string;
  zip_code : string;
  price : float;
  sqft : float;
  beds : float;
  baths : float;
  latitude : float;
  longitude : float;
  year_built : float;
  property_type : string;
  listing_url : option string;
  listing_source : option string;
  neighborhood_id : option string;
  deal_score : option float;
  price_per_sqft : float;
  is_rent_stabilized : bool;
  rent_cap_percentage : option float;
  created_at : string;
  updated_at : string
}.

Module PriceRange.
Record t : Type := { min : string; max : string }.
End PriceRange.

(** The filter fields of the component's state. *)
Record Filters : Type := {
  searchTerm : string;
  priceRange : PriceRange.t;
  propertyType : string;
  minDealScore : string;
  rentStabilizedOnly : bool
}.

(** The state [useState] starts with. *)
Definition initial : Filters :=
  {| searchTerm := EmptyString;
     priceRange := {| PriceRange.min := EmptyString; PriceRange.max := EmptyString |};
     propertyType := "all";
     minDealScore := "0";
     rentStabilizedOnly := false |}.

Section Conversion.

Variable Number : string -> float.

Definition applyFilters (properties : list Property) (st : Filters) : list Property :=
  let filtered := properties in
  let filtered :=
    if nonempty (searchTerm st) then
      filter (fun p =>
                includes (toLowerCase (address p)) (toLowerCase (searchTerm st))
                || includes (toLowerCase (city p)) (toLowerCase (searchTerm st))
                || includes (zip_code p) (searchTerm st))
             filtered
    else filtered in
  let filtered :=
    if nonempty (PriceRange.min (priceRange st)) then
      filter (fun p => price p >=? Number (PriceRange.min (priceRange st))) filtered
    else filtered in
  let filtered :=
    if nonempty (PriceRange.max (priceRange st)) then
      filter (fun p => price p <=? Number (PriceRange.max (priceRange st))) filtered
    else filtered in
  let filtered :=
    if negb (String.eqb (propertyType st) "all") then
      filter (fun p => String.eqb (property_type p) (propertyType st)) filtered
    else filtered in
  let filtered :=
    if negb (String.eqb (minDealScore st) "0") then
      filter (fun p => or_else (deal_score p) 0 >=? Number (minDealScore st)) filtered
    else filtered in
  let filtered :=
    if rentStabilizedOnly st then filter (fun p => is_rent_stabilized p) filtered
    else filtered in
  filtered.

End Conversion.

(** The class of the score badge. *)
Definition getDealScoreColor (score : option float) : string :=
  if negb (truthy score) then "bg-gray-500"
  else
    match score with
    | Some score =>
        if score >=? 80 then "bg-green-500"
        else if score >=? 60 then "bg-yellow-500"
        else "bg-red-500"
    | None => "bg-red-500"
    end.

End Discovery.

(** ** Vocabulary of the statements

    The quantities the specification names and the program computes inline,
    and the finite sets of values the sub-scores range over. *)

Import RentCap DealScore.

(** [signed s f]: [f] is NaN or carries the sign [s]. *)
Definition signed (s : bool) (f : spec_float) : Prop :=
  match f with
  | S754_nan => True
  | S754_zero s' | S754_infinity s' | S754_finite s' _ _ => s' = s
  end.

(** [is_fin f]: [f] is a finite number other than a zero. *)
Definition is_fin (f : spec_float) : Prop :=
  match f with
  | S754_finite _ _ _ => True
  | _ => False
  end.

(** Integer years as numbers, and a range of them. *)
Definition year_number (y : Z) : float := of_uint63 (Uint63.of_Z y).

Definition years_between (lo : Z) (n : nat) : list Z :=
  map (fun k => (lo + Z.of_nat k)%Z) (seq 0 n).

(** On calendar years the eligibility test agrees with integer arithmetic. *)
Definition eligibility_agrees (cy yb : Z) : bool :=
  Bool.eqb (isEligible (checkRentCapEligibility (year_number cy) (year_number yb)))
           (15 <=? cy - yb)%Z.

(** The price-per-area ratio the price advantage is computed from. *)
Definition priceRatio (p : PropertyMetrics) (n : NeighborhoodData) : float :=
  (price p / sqft p) / medianPricePerSqft n.

(** The step function of the ratio, bucket by bucket. *)
Definition priceStep (r : float) : float :=
  if r <=? 0.8 then 40
  else if r <=? 0.9 then 35
  else if r <=? 0.95 then 30
  else if r <=? 1.0 then 25
  else if r <=? 1.05 then 20
  else if r <=? 1.1 then 15
  else if r <=? 1.2 then 10
  else 5.

(** The stability benefit of an eligible property: the module's fixed
    inflation rate makes it [0.08 - 0.084]. *)
Definition volatilityBenefit : float := 0.08 - (5.0 + CURRENT_INFLATION_RATE) / 100.

(** What [calculateRentStabilizationBoost] clamps for an eligible property. *)
Definition boost_ratio (rent : float) : float := (rent * volatilityBenefit) / rent * 100.

(** Every sub-score is a clamped sum of constants chosen by comparisons, so
    each has finitely many possible values. *)
Definition price_values : list float := [40; 35; 30; 25; 20; 15; 10; 5].
Definition size_values : list float :=
  [4.5; 5.5; 6.5; 7.5; 8.5; 9.5; 10.5; 11.5; 12.5; 13.5; 14.5; 15].
Definition age_values : list float := [8; 10; 11; 13; 14; 15].
Definition location_values : list float := [5; 6; 7; 8; 9; 10].
Definition timing_values : list float := [3; 4; 5; 6; 7; 8; 9; 10].

(** The total the scorer returns, as a function of the six sub-scores. *)
Definition total_of (vp vs va vr vl vm : float) : float :=
  Math_min 100 (Math_max 0 (((((0 + vp) + vs) + (va + vr)) + vl) + vm)).

(** A test on the total, for every combination of sub-score values. *)
Definition for_all_totals (vr : float) (test : float -> bool) : bool :=
  forallb (fun vp => forallb (fun vs => forallb (fun va =>
    forallb (fun vl => forallb (fun vm => test (total_of vp vs va vr vl vm))
      timing_values) location_values) age_values) size_values) price_values.

(** The location score before the crime-rate test, the crime-rate test and
    the transit test after it, as [calculateLocationBonus] makes them. *)
Definition location_before_crime (n : NeighborhoodData) : float :=
  let score := 5 in
  let score :=
    match walkScore n with
    | Some walk =>
        if ToBoolean walk then
          if walk >=? 90 then score + 3
          else if walk >=? 70 then score + 2
          else if walk >=? 50 then score + 1
          else score
        else score
    | None => score
    end in
  match schoolRating n with
  | Some school =>
      if ToBoolean school then
        if school >=? 8 then score + 2
        else if school >=? 6 then score + 1
        else score
      else score
  | None => score
  end.

Definition crime_step (c : option float) (score : float) : float :=
  match c with
  | Some crime =>
      if ToBoolean crime then
        if crime <=? 20 then score + 2
        else if crime <=? 40 then score + 1
        else score
      else score
  | None => score
  end.

Definition transit_step (n : NeighborhoodData) (score : float) : float :=
  match transitScore n with
  | Some transit =>
      if ToBoolean transit then
        if transit >=? 70 then score + 1 else score
      else score
  | None => score
  end.

(** What the bedroom/bathroom test of [calculateSizeAdvantage] does to the
    score. *)
Inductive adjustment : Type :=
| plus_two
| minus_one
| unchanged.

(** The bedroom/bathroom test, as [calculateSizeAdvantage] makes it. *)
Definition layout_adjustment (p : PropertyMetrics) : adjustment :=
  let bedBathRatio := beds p / baths p in
  if (bedBathRatio >=? 1) && (bedBathRatio <=? 2) then plus_two
  else if bedBathRatio >? 2 then minus_one
  else unchanged.

Definition adjust (a : adjustment) (score : float) : float :=
  match a with
  | plus_two => score + 2
  | minus_one => score - 1
  | unchanged => score
  end.

(** The score after the size comparison, and the property-type bonus. *)
Definition size_step (p : PropertyMetrics) (n : NeighborhoodData) : float :=
  let sizeRatio := sqft p / avgSqft n in
  if sizeRatio >=? 1.2 then 7.5 + 4
  else if sizeRatio >=? 1.1 then 7.5 + 3
  else if sizeRatio >=? 1.0 then 7.5 + 2
  else if sizeRatio >=? 0.9 then 7.5 + 1
  else 7.5 - 2.

Definition type_step (p : PropertyMetrics) (score : float) : float :=
  match propertyType p with
  | single_family => score + 2
  | townhouse => score + 1
  | _ => score
  end.

(** ** Vocabulary of the further statements *)

(** [mentions label kw]: the lowered label contains the keyword. *)
Definition mentions (label kw : string) : Prop :=
  exists a b, toLowerCase label = (a ++ kw ++ b)%string.

(** The exemption reasons, in the order [checkAdditionalExemptions] tests
    them, and the keywords it looks for. *)
Definition all_reasons : list string :=
  ["Single-family home owned by small landlord (≤2 properties)";
   "Recently constructed property";
   "Educational institution housing";
   "Transient lodging";
   "Restricted affordable housing"].

Definition keywords : list string :=
  ["dorm"; "school"; "hotel"; "motel"; "nonprofit"; "affordable"].

(** [subsequence l m]: [l] is [m] with some entries left out. *)
Fixpoint subsequence (l m : list string) : bool :=
  match l, m with
  | [], _ => true
  | _ :: _, [] => false
  | x :: l', y :: m' =>
      if String.eqb x y then subsequence l' m' else subsequence l m'
  end.

(** The advice the notice gives for an exempt and for a covered property. *)
Definition counsel_note : list string :=
  ["Consult with legal counsel to confirm exemption status"].

Definition increase_notes : list string :=
  ["Provide proper 90-day notice for rent increases";
   "Include AB 1482 compliance information in notice";
   "Keep documentation of inflation rate calculation"].

(** On calendar years from 2024 on, a property younger than 15 years was
    built after 2009. *)
Definition young_is_recent (cy yb : Z) : bool :=
  implb (negb (isEligible (checkRentCapEligibility (year_number cy) (year_number yb))))
        (year_number yb >? 2009).

(** A test on the five sub-scores that do not depend on the rent cap, for
    every combination of their values. *)
Definition for_all_scores (test : float -> float -> float -> float -> float -> bool) : bool :=
  forallb (fun vp => forallb (fun vs => forallb (fun va =>
    forallb (fun vl => forallb (fun vm => test vp vs va vl vm)
      timing_values) location_values) age_values) size_values) price_values.

(** A total of 90 or more is reached with full marks only. *)
Definition full_marks_test (vp vs va vl vm : float) : bool :=
  implb (total_of vp vs va 0 vl vm >=? 90)
        (PrimFloat.Leibniz.eqb vp 40 && PrimFloat.Leibniz.eqb vs 15
         && PrimFloat.Leibniz.eqb va 15 && PrimFloat.Leibniz.eqb vl 10
         && PrimFloat.Leibniz.eqb vm 10
         && PrimFloat.Leibniz.eqb (total_of vp vs va 0 vl vm) 90).

(** A house and a neighborhood that get full marks in 2026. *)
Definition best_house : PropertyMetrics :=
  {| price := 700000; sqft := 1300; beds := 3; baths := 2; yearBuilt := 1960;
     propertyType := single_family; latitude := 34.05; longitude := -118.25 |}.

Definition best_area : NeighborhoodData :=
  {| medianPricePerSqft := 1000; medianPrice := 900000; avgSqft := 1000;
     avgBeds := 3; avgBaths := 2; avgYearBuilt := 1990;
     priceAppreciationRate := Some 8; rentalYield := Some 6; walkScore := Some 95;
     transitScore := Some 80; crimeRate := Some 10; schoolRating := Some 9 |}.

Definition with_type (t : PropertyType) (p : PropertyMetrics) : PropertyMetrics :=
  {| price := price p; sqft := sqft p; beds := beds p; baths := baths p;
     yearBuilt := yearBuilt p; propertyType := t;
     latitude := latitude p; longitude := longitude p |}.

(** A row for a house of 1960, not yet marked rent-stabilized, whose
    neighborhood has a median of 500 per sqft. *)
Module SchemaSamples.

Import QArith Schema.

#[local] Open Scope Q_scope.

Definition old_house : properties :=
  {| id := Some "p1"%string; address := Some "1 Main St"%string;
     city := Some "Oakland"%string; state := Some "CA"%string;
     zip_code := Some "94601"%string; price := Some 400000; sqft := Some 1000%Z;
     beds := Some 3%Z; baths := Some 2; latitude := Some 37.8;
     longitude := Some (-122.2); year_built := Some 1960%Z;
     property_type := Some "single_family"%string; listing_url := None;
     listing_source := None; neighborhood_id := Some "n1"%string;
     deal_score := None; price_per_sqft := Some 400;
     is_rent_stabilized := Some false; rent_cap_percentage := None;
     created_at := None; updated_at := None |}.

(** The trigger in 2026, with exact quotients and scores. *)
Definition run (NEW : properties) : result properties :=
  update_property_metrics 2026 Qdiv (fun q => q) (fun _ => Some 500) NEW.

Definition after (r : result properties) : properties :=
  match r with
  | Ok row => row
  | division_by_zero => old_house
  end.

End SchemaSamples.

(** What a listed property must satisfy to stay, filter by filter: a filter
    whose field is at its initial value lets everything pass. *)
Definition passes (Number : string -> float) (st : Discovery.Filters)
  (p : Discovery.Property) : bool :=
  (negb (nonempty (Discovery.searchTerm st))
   || (includes (toLowerCase (Discovery.address p))
                (toLowerCase (Discovery.searchTerm st))
       || includes (toLowerCase (Discovery.city p))
                   (toLowerCase (Discovery.searchTerm st))
       || includes (Discovery.zip_code p) (Discovery.searchTerm st)))
  && (negb (nonempty (Discovery.PriceRange.min (Discovery.priceRange st)))
      || (Discovery.price p
          >=? Number (Discovery.PriceRange.min (Discovery.priceRange st))))
  && (negb (nonempty (Discovery.PriceRange.max (Discovery.priceRange st)))
      || (Discovery.price p
          <=? Number (Discovery.PriceRange.max (Discovery.priceRange st))))
  && (String.eqb (Discovery.propertyType st) "all"
      || String.eqb (Discovery.property_type p) (Discovery.propertyType st))
  && (String.eqb (Discovery.minDealScore st) "0"
      || (or_else (Discovery.deal_score p) 0
          >=? Number (Discovery.minDealScore st)))
  && (negb (Discovery.rentStabilizedOnly st) || Discovery.is_rent_stabilized p).

(** A listed property with and without a deal score. *)
Definition listing (score : option float) : Discovery.Property :=
  {| Discovery.id := "p1"; Discovery.address := "1 Main St";
     Discovery.city := "Oakland"; Discovery.state := "CA";
     Discovery.zip_code := "94601"; Discovery.price := 400000;
     Discovery.sqft := 1000; Discovery.beds := 3; Discovery.baths := 2;
     Discovery.latitude := 37.8; Discovery.longitude := -122.2;
     Discovery.year_built := 1960; Discovery.property_type := "single_family";
     Discovery.listing_url := None; Discovery.listing_source := None;
     Discovery.neighborhood_id := None; Discovery.deal_score := score;
     Discovery.price_per_sqft := 400; Discovery.is_rent_stabilized := true;
     Discovery.rent_cap_percentage := Some 5;
     Discovery.created_at := "2026-01-01"; Discovery.updated_at := "2026-01-01" |}.

(** The state after typing a minimum price. *)
Definition with_min_price (s : string) (st : Discovery.Filters) : Discovery.Filters :=
  {| Discovery.searchTerm := Discovery.searchTerm st;
     Discovery.priceRange :=
       {| Discovery.PriceRange.min := s;
          Discovery.PriceRange.max :=
            Discovery.PriceRange.max (Discovery.priceRange st) |};
     Discovery.propertyType := Discovery.propertyType st;
     Discovery.minDealScore := Discovery.minDealScore st;
     Discovery.rentStabilizedOnly := Discovery.rentStabilizedOnly st |}.

(** ** Facts about binary64 comparison and rounding

    Derived from the specification of the primitive operations:
    the order is the one of [SFcompare], and the sign of a product or a
    quotient is the exclusive or of the signs of its operands. *)

Module FloatFacts.

(** *** The order

    [SFcompare] orders the specification floats by sign, then exponent, then
    mantissa; swapping its arguments reverses the outcome. *)
Lemma SFcompare_antisym (x y : spec_float) :
  SFcompare y x = option_map CompOpp (SFcompare x y).
Proof.
  destruct x as [sx|sx| |sx mx ex], y as [sy|sy| |sy my ey]; simpl;
    try destruct sx; try destruct sy; try reflexivity; f_equal;
    change (Pos.compare_cont Eq my mx) with (Pos.compare my mx);
    change (Pos.compare_cont Eq mx my) with (Pos.compare mx my);
    rewrite (Z.compare_antisym ex ey), (Pos.compare_antisym mx my);
    destruct (ex ?= ey)%Z; simpl; try reflexivity;
    destruct (mx ?= my)%positive; reflexivity.
Qed.

Lemma SFltb_SFleb x y : SFltb x y = true -> SFleb x y = true.
Proof. unfold SFltb, SFleb. destruct (SFcompare x y) as [[]|]; congruence. Qed.

Lemma SFltb_not_SFleb x y : SFltb x y = true -> SFleb y x = false.
Proof.
  unfold SFltb, SFleb. rewrite (SFcompare_antisym x y).
  destruct (SFcompare x y) as [[]|]; simpl; congruence.
Qed.

Lemma SFleb_not_SFltb x y : SFleb x y = true -> SFltb y x = false.
Proof.
  unfold SFltb, SFleb. rewrite (SFcompare_antisym x y).
  destruct (SFcompare x y) as [[]|]; simpl; congruence.
Qed.

Lemma SFleb_trans x y z :
  SFleb x y = true -> SFleb y z = true -> SFleb x z = true.
Proof.
  destruct x as [sx|sx| |sx mx ex], y as [sy|sy| |sy my ey], z as [sz|sz| |sz mz ez];
    unfold SFleb; simpl;
    try destruct sx; try destruct sy; try destruct sz; try congruence.
  all: change (Pos.compare_cont Eq mx my) with (Pos.compare mx my);
    change (Pos.compare_cont Eq my mz) with (Pos.compare my mz);
    change (Pos.compare_cont Eq mx mz) with (Pos.compare mx mz);
    destruct (Z.compare_spec ex ey), (Z.compare_spec ey ez), (Z.compare_spec ex ez);
    try lia; simpl; try congruence;
    destruct (Pos.compare_spec mx my), (Pos.compare_spec my mz), (Pos.compare_spec mx mz);
    simpl; try congruence; lia.
Qed.

(** The same facts on the primitive comparisons. *)
Lemma ltb_leb x y : (x <? y) = true -> (x <=? y) = true.
Proof. rewrite FloatAxioms.ltb_spec, FloatAxioms.leb_spec. apply SFltb_SFleb. Qed.

Lemma ltb_not_leb x y : (x <? y) = true -> (y <=? x) = false.
Proof. rewrite FloatAxioms.ltb_spec, FloatAxioms.leb_spec. apply SFltb_not_SFleb. Qed.

Lemma leb_not_ltb x y : (x <=? y) = true -> (y <? x) = false.
Proof. rewrite FloatAxioms.ltb_spec, FloatAxioms.leb_spec. apply SFleb_not_SFltb. Qed.

Lemma leb_trans x y z : (x <=? y) = true -> (y <=? z) = true -> (x <=? z) = true.
Proof. rewrite !FloatAxioms.leb_spec. apply SFleb_trans. Qed.

(** *** Signs

    Rounding keeps the sign it is given, so a product or a quotient that is a
    number carries the exclusive or of the signs of its operands. *)
Lemma binary_round_aux_signed s m e l :
  signed s (binary_round_aux prec emax s m e l).
Proof.
  unfold binary_round_aux.
  destruct (shr_fexp prec emax m e l) as [mrs' e'].
  destruct (shr_fexp prec emax _ e' loc_Exact) as [mrs'' e''].
  destruct (shr_m mrs''); simpl; trivial.
  destruct (_ <=? _)%Z; exact eq_refl.
Qed.

Lemma SFmul_signed sx sy x y :
  signed sx x -> signed sy y -> signed (xorb sx sy) (SFmul prec emax x y).
Proof.
  destruct x, y; simpl; intros; subst; trivial.
  apply binary_round_aux_signed.
Qed.

Lemma SFdiv_signed sx sy x y :
  signed sx x -> signed sy y -> signed (xorb sx sy) (SFdiv prec emax x y).
Proof.
  destruct x, y; simpl; intros; subst; trivial.
  destruct (SFdiv_core_binary _ _ _ _ _ _) as [[mz ez] lz].
  apply binary_round_aux_signed.
Qed.

Lemma signed_true_not_positive f :
  signed true f -> SFltb (S754_zero false) f = false.
Proof. destruct f; simpl; intros; subst; reflexivity. Qed.

(** *** NaN

    Rounding a non-negative mantissa never yields NaN, so multiplying or
    dividing a number by a finite nonzero number gives a number. *)
Lemma shr_1_nonneg mrs : (0 <= shr_m mrs)%Z -> (0 <= shr_m (shr_1 mrs))%Z.
Proof.
  destruct mrs as [m r s]; simpl.
  destruct m as [|[p|p|]|[p|p|]]; simpl; lia.
Qed.

Lemma iter_shr_1_nonneg p : forall mrs,
  (0 <= shr_m mrs)%Z -> (0 <= shr_m (iter_pos shr_1 p mrs))%Z.
Proof.
  induction p as [p IH|p IH|]; simpl; intros mrs H.
  - apply IH, IH, shr_1_nonneg, H.
  - apply IH, IH, H.
  - apply shr_1_nonneg, H.
Qed.

Lemma shr_fexp_nonneg m e l :
  (0 <= m)%Z -> (0 <= shr_m (fst (shr_fexp prec emax m e l)))%Z.
Proof.
  intros H. unfold shr_fexp, shr.
  assert (H0 : (0 <= shr_m (shr_record_of_loc m l))%Z)
    by (destruct l as [|[]]; exact H).
  destruct (fexp prec emax (Zdigits2 m + e) - e)%Z; simpl; trivial.
  apply iter_shr_1_nonneg, H0.
Qed.

Lemma round_nearest_even_nonneg m l :
  (0 <= m)%Z -> (0 <= round_nearest_even m l)%Z.
Proof.
  intros H. destruct l as [|[]]; simpl; try lia.
  destruct (Z.even m); lia.
Qed.

Lemma binary_round_aux_not_nan s m e l :
  (0 <= m)%Z -> binary_round_aux prec emax s m e l <> S754_nan.
Proof.
  intros H. unfold binary_round_aux.
  pose proof (shr_fexp_nonneg m e l H) as H1.
  destruct (shr_fexp prec emax m e l) as [mrs' e']. simpl in H1.
  pose proof (shr_fexp_nonneg _ e' loc_Exact
                (round_nearest_even_nonneg _ (loc_of_shr_record mrs') H1)) as H2.
  destruct (shr_fexp prec emax _ e' loc_Exact) as [mrs'' e'']. simpl in H2.
  destruct (shr_m mrs''); try discriminate; try lia.
  destruct (_ <=? _)%Z; discriminate.
Qed.

Lemma SFmul_not_nan x y :
  x <> S754_nan -> is_fin y -> SFmul prec emax x y <> S754_nan.
Proof.
  destruct x, y; simpl; intros Hx Hy; try contradiction; try discriminate.
  apply binary_round_aux_not_nan. lia.
Qed.

Lemma SFdiv_core_binary_nonneg m1 e1 m2 e2 :
  (0 <= fst (fst (SFdiv_core_binary prec emax (Zpos m1) e1 (Zpos m2) e2)))%Z.
Proof.
  unfold SFdiv_core_binary.
  set (s := (e1 - e2 - _)%Z).
  set (m' := match s with Zpos _ => Z.shiftl (Zpos m1) s | Z0 => Zpos m1 | Zneg _ => 0%Z end).
  assert (Hm : (0 <= m')%Z).
  { subst m'. destruct s; try lia. apply Z.shiftl_nonneg. lia. }
  pose proof (Z_div_mod m' (Zpos m2) eq_refl) as Hd.
  destruct (Z.div_eucl m' (Zpos m2)) as [q r]. simpl. nia.
Qed.

Lemma SFdiv_not_nan x y :
  x <> S754_nan -> is_fin y -> SFdiv prec emax x y <> S754_nan.
Proof.
  destruct x, y; simpl; intros Hx Hy; try contradiction; try discriminate.
  pose proof (SFdiv_core_binary_nonneg m e m0 e0) as H.
  destruct (SFdiv_core_binary _ _ _ _ _ _) as [[mz ez] lz].
  apply binary_round_aux_not_nan. exact H.
Qed.

(** *** The predicates on primitive floats, read on the specification *)
Lemma SFeqb_refl f : f <> S754_nan -> SFeqb f f = true.
Proof.
  destruct f as [s|s| |s m e]; unfold SFeqb; simpl; intros H;
    try congruence; try (destruct s; reflexivity).
  rewrite Z.compare_refl.
  change (Pos.compare_cont Eq m m) with (Pos.compare m m).
  rewrite Pos.compare_refl. destruct s; reflexivity.
Qed.

Lemma is_nan_spec x : is_nan x = true <-> Prim2SF x = S754_nan.
Proof.
  unfold is_nan. rewrite FloatAxioms.eqb_spec. split.
  - destruct (Prim2SF x) eqn:E; trivial;
      rewrite SFeqb_refl; simpl; congruence.
  - intros ->. reflexivity.
Qed.

Lemma is_nan_false x : Prim2SF x <> S754_nan -> is_nan x = false.
Proof.
  intros H. destruct (is_nan x) eqn:E; trivial.
  apply is_nan_spec in E. contradiction.
Qed.

Lemma finite_nonzero_spec x : finite_nonzero x = true <-> is_fin (Prim2SF x).
Proof.
  unfold finite_nonzero, is_finite, is_infinity, is_zero, is_nan.
  rewrite !FloatAxioms.eqb_spec, FloatAxioms.abs_spec.
  change (Prim2SF zero) with (S754_zero false).
  change (Prim2SF infinity) with (S754_infinity false).
  destruct (Prim2SF x) as [s|s| |s m e] eqn:E; try destruct s; simpl;
    try (split; [discriminate|contradiction]).
  all: rewrite SFeqb_refl by discriminate; split; trivial.
Qed.

Lemma signed_any f : exists s, signed s f.
Proof. destruct f as [s|s| |s m e]; try (exists s; reflexivity). exists true. exact I. Qed.

Lemma is_fin_not_nan f : is_fin f -> f <> S754_nan.
Proof. destruct f; simpl; intros H; try contradiction; discriminate. Qed.

(** [(rent * vb) / rent * k] for a negative [vb] and a positive [k] is never
    above zero: its sign is negative whatever the sign of [rent]. *)
Lemma scaled_ratio_not_positive (rent vb k : float) :
  signed true (Prim2SF vb) -> signed false (Prim2SF k) ->
  (0 <? (rent * vb) / rent * k) = false.
Proof.
  intros Hvb Hk.
  rewrite FloatAxioms.ltb_spec, mul_spec, div_spec, mul_spec.
  change (Prim2SF 0) with (S754_zero false).
  apply signed_true_not_positive.
  destruct (signed_any (Prim2SF rent)) as [s Hs].
  change true with (xorb true false).
  apply SFmul_signed; [|exact Hk].
  replace true with (xorb (xorb s true) s) by (destruct s; reflexivity).
  apply SFdiv_signed; [|exact Hs].
  apply SFmul_signed; assumption.
Qed.

Lemma scaled_ratio_not_nan (rent vb k : float) :
  is_fin (Prim2SF rent) -> is_fin (Prim2SF vb) -> is_fin (Prim2SF k) ->
  is_nan ((rent * vb) / rent * k) = false.
Proof.
  intros Hr Hvb Hk. apply is_nan_false.
  rewrite mul_spec, div_spec, mul_spec.
  apply SFmul_not_nan; [|exact Hk].
  apply SFdiv_not_nan; [|exact Hr].
  apply SFmul_not_nan; [|exact Hvb].
  apply is_fin_not_nan, Hr.
Qed.

(** Clamping from below at 0 a value that is not above 0 leaves 0, or NaN. *)
Lemma clamp_not_positive (hi x : float) :
  (0 <? x) = false -> Math_min hi (Math_max 0 x) = if is_nan x then nan else Math_min hi 0.
Proof.
  intros H. unfold Math_max at 1. rewrite H.
  change (is_nan 0) with false. change (is_neg_zero 0) with false.
  rewrite andb_false_r. simpl.
  destruct (is_nan x); [|reflexivity].
  unfold Math_min. change (is_nan nan) with true. rewrite orb_true_r. reflexivity.
Qed.

(** For a [rent] that is a zero, an infinity or NaN the same expression is
    NaN: [0 / 0] and [inf / inf]. *)
Lemma scaled_ratio_nan (rent vb k : float) :
  ~ is_fin (Prim2SF rent) -> is_fin (Prim2SF vb) ->
  is_nan ((rent * vb) / rent * k) = true.
Proof.
  intros Hr Hvb. apply is_nan_spec.
  rewrite mul_spec, div_spec, mul_spec.
  destruct (Prim2SF rent) as [s|s| |s m e], (Prim2SF vb) as [s'|s'| |s' m' e'];
    simpl in *; try contradiction; trivial.
Qed.

End FloatFacts.

Import FloatFacts.

(** Case analysis on every test of a straight-line scoring function. *)
Ltac branches :=
  repeat match goal with
  | |- context [match ?o with Some _ => _ | None => _ end] => destruct o
  | |- context [if ?c then _ else _] => destruct c
  | |- context [match propertyType ?p with _ => _ end] => destruct (propertyType p)
  end.

Ltac member := vm_compute; repeat (first [left; reflexivity | right]).

Lemma forallb_In {A} (f : A -> bool) (l : list A) (x : A) :
  forallb f l = true -> In x l -> f x = true.
Proof. intros H. rewrite forallb_forall in H. apply H. Qed.

Lemma is_nan_eq (x : float) : is_nan x = true -> x = nan.
Proof.
  intros H. apply is_nan_spec in H. apply Prim2SF_inj. rewrite H. reflexivity.
Qed.

(** ** The rent-cap helper *)

Lemma years_between_In lo n y :
  (lo <= y < lo + Z.of_nat n)%Z -> In y (years_between lo n).
Proof.
  intros H. unfold years_between. apply in_map_iff.
  exists (Z.to_nat (y - lo)). split; [lia|].
  apply in_seq. lia.
Qed.

Lemma eligibility_on_calendar_years cy yb :
  (1900 <= cy < 2200)%Z -> (1700 <= yb < 2200)%Z ->
  isEligible (checkRentCapEligibility (year_number cy) (year_number yb))
  = (15 <=? cy - yb)%Z.
Proof.
  intros Hc Hy.
  assert (H : forallb (fun c => forallb (eligibility_agrees c) (years_between 1700 500))
                (years_between 1900 300) = true) by (vm_compute; reflexivity).
  rewrite forallb_forall in H.
  specialize (H cy (years_between_In 1900 300 cy ltac:(lia))).
  rewrite forallb_forall in H.
  specialize (H yb (years_between_In 1700 500 yb ltac:(lia))).
  apply Bool.eqb_prop in H. exact H.
Qed.

(** C3: [checkRentCapEligibility] reports a property eligible exactly when
    [currentYear - yearBuilt >= 15]: an age of exactly 14 is ineligible, an age
    of exactly 15 is eligible, and an ineligible result carries exactly one
    exemption reason (an eligible one carries none).  On calendar years the
    test is the integer comparison [15 <= currentYear - yearBuilt]. *)
Theorem checkRentCapEligibility_boundary (year built : float) :
  let info := checkRentCapEligibility year built in
  propertyAge info = year - built
  /\ isEligible info = (year - built >=? 15)
  /\ (year - built = 14 -> isEligible info = false)
  /\ (year - built = 15 -> isEligible info = true)
  /\ (isEligible info = false ->
      List.length (exemptionReasons info) = 1%nat
      /\ exemptionReasons info
         = [[Lit "Property is only "; Num (year - built);
             Lit " years old (must be 15+ years)"]])
  /\ (isEligible info = true -> exemptionReasons info = [])
  /\ (forall cy yb : Z,
        (1900 <= cy < 2200)%Z -> (1700 <= yb < 2200)%Z ->
        isEligible (checkRentCapEligibility (year_number cy) (year_number yb)) = true
        <-> (cy - yb >= 15)%Z).
Proof.
  cbv zeta.
  split; [reflexivity|]. split; [reflexivity|].
  split; [|split; [|split; [|split]]].
  - unfold checkRentCapEligibility; cbn. intros ->. reflexivity.
  - unfold checkRentCapEligibility; cbn. intros ->. reflexivity.
  - unfold checkRentCapEligibility; cbn. intros ->. split; reflexivity.
  - unfold checkRentCapEligibility; cbn. intros ->. reflexivity.
  - intros cy yb Hc Hy.
    rewrite (eligibility_on_calendar_years cy yb Hc Hy), Z.leb_le. lia.
Qed.

(** The boundary at a pinned year 2026: built 2012 (age 14) and 2011 (age 15). *)
Lemma checkRentCapEligibility_boundary_witness :
  isEligible (checkRentCapEligibility 2026 2012) = false
  /\ isEligible (checkRentCapEligibility 2026 2011) = true
  /\ List.length (exemptionReasons (checkRentCapEligibility 2026 2012)) = 1%nat.
Proof.
  destruct (checkRentCapEligibility_boundary 2026 2012) as (_ & _ & H14 & _ & H1 & _).
  destruct (checkRentCapEligibility_boundary 2026 2011) as (_ & _ & _ & H15 & _).
  split; [apply H14; reflexivity|].
  split; [apply H15; reflexivity|].
  apply (H1 (H14 eq_refl)).
Defined.

(** C4: when the age is below 15 years, [calculateMaxRentIncrease] returns a
    zero increase, a zero percentage, [isEligible = false] and the current rent
    unchanged, whatever inflation rate the caller passes (or omits). *)
Theorem calculateMaxRentIncrease_under_15
  (year currentRent built : float) (inflationRate : option float) :
  (year - built <? 15) = true ->
  let r := calculateMaxRentIncrease year currentRent built inflationRate in
  MaxRentIncrease.maxIncrease r = 0
  /\ MaxRentIncrease.increasePercentage r = 0
  /\ MaxRentIncrease.isEligible r = false
  /\ MaxRentIncrease.maxNewRent r = currentRent.
Proof.
  intros Hage. cbv zeta.
  unfold calculateMaxRentIncrease, checkRentCapEligibility; simpl.
  rewrite (ltb_not_leb _ _ Hage). simpl. repeat split.
Qed.

Lemma calculateMaxRentIncrease_under_15_witness :
  let r := calculateMaxRentIncrease 2026 2000 2012 (Some 10) in
  MaxRentIncrease.maxIncrease r = 0
  /\ MaxRentIncrease.increasePercentage r = 0
  /\ MaxRentIncrease.isEligible r = false
  /\ MaxRentIncrease.maxNewRent r = 2000.
Proof.
  apply (calculateMaxRentIncrease_under_15 2026 2000 2012 (Some 10)).
  reflexivity.
Defined.

(** A supplied rate that is neither 0 nor NaN is used as it is. *)
Lemma calculateMaxRentIncrease_truthy_rate
  (year currentRent built r : float) :
  (year - built >=? 15) = true -> ToBoolean r = true ->
  let res := calculateMaxRentIncrease year currentRent built (Some r) in
  MaxRentIncrease.isEligible res = true
  /\ MaxRentIncrease.increasePercentage res = 5.0 + r
  /\ MaxRentIncrease.maxIncrease res
     = currentRent * (MaxRentIncrease.increasePercentage res / 100)
  /\ MaxRentIncrease.maxNewRent res = currentRent + MaxRentIncrease.maxIncrease res.
Proof.
  intros E T. cbv zeta.
  unfold calculateMaxRentIncrease, checkRentCapEligibility, or_else.
  cbn [isEligible]. rewrite E, T. cbn. repeat split.
Qed.

(** C6 on the code: for an eligible property a supplied inflation rate of 0
    is not used.  [inflationRate || CURRENT_INFLATION_RATE] reads 0 as
    missing, so the result is the one for an omitted rate: the percentage is
    [5.0 + 3.4], not [5.0 + 0]. *)
Theorem calculateMaxRentIncrease_zero_rate
  (year currentRent built : float) :
  (year - built >=? 15) = true ->
  let res := calculateMaxRentIncrease year currentRent built (Some 0) in
  res = calculateMaxRentIncrease year currentRent built None
  /\ MaxRentIncrease.increasePercentage res = 5.0 + CURRENT_INFLATION_RATE
  /\ (MaxRentIncrease.increasePercentage res =? 5.0 + 0) = false.
Proof.
  intros E. cbv zeta.
  unfold calculateMaxRentIncrease, checkRentCapEligibility.
  cbn [isEligible]. rewrite E. cbn. repeat split.
Qed.

(** A rent of 2000 on the house of 1960: a rate of 0 allows 168, not 100. *)
Lemma calculateMaxRentIncrease_zero_rate_witness :
  let res := calculateMaxRentIncrease 2026 2000 1960 (Some 0) in
  res = calculateMaxRentIncrease 2026 2000 1960 None
  /\ MaxRentIncrease.maxIncrease res = 168
  /\ 2000 * ((5.0 + 0) / 100) = 100.
Proof.
  destruct (calculateMaxRentIncrease_zero_rate 2026 2000 1960 eq_refl) as (H & _).
  split; [exact H|]. split; reflexivity.
Defined.

(** ** The rent-stabilization boost *)

Lemma boost_ratio_not_positive rent : (0 <? boost_ratio rent) = false.
Proof.
  apply scaled_ratio_not_positive; vm_compute; reflexivity.
Qed.

Lemma boost_ratio_is_nan rent :
  is_nan (boost_ratio rent) = negb (finite_nonzero rent).
Proof.
  destruct (finite_nonzero rent) eqn:E; simpl.
  - apply finite_nonzero_spec in E.
    apply scaled_ratio_not_nan; trivial; vm_compute; exact I.
  - apply scaled_ratio_nan; [|vm_compute; exact I].
    intros H. apply finite_nonzero_spec in H. congruence.
Qed.

Lemma boostScore_eligible year built rent rate :
  (year - built >=? 15) = true ->
  Boost.boostScore (calculateRentStabilizationBoost year built rent rate)
  = if finite_nonzero rent then 0 else nan.
Proof.
  intros H. unfold calculateRentStabilizationBoost, checkRentCapEligibility.
  cbn [isEligible maxIncreasePercentage Boost.boostScore]. rewrite H.
  cbn [negb Boost.boostScore].
  change (Math_min 20 (Math_max 0 (boost_ratio rent))
          = if finite_nonzero rent then 0 else nan).
  rewrite (clamp_not_positive 20 _ (boost_ratio_not_positive rent)).
  rewrite boost_ratio_is_nan.
  destruct (finite_nonzero rent); reflexivity.
Qed.

Lemma boostScore_ineligible year built rent rate :
  (year - built >=? 15) = false ->
  Boost.boostScore (calculateRentStabilizationBoost year built rent rate) = 0.
Proof.
  intros H. unfold calculateRentStabilizationBoost, checkRentCapEligibility.
  cbn [isEligible]. rewrite H. reflexivity.
Qed.

(** The bonus the deal scorer derives from the boost. *)
Lemma calculateRentStabilizationBonusValue_cases year p n :
  calculateRentStabilizationBonusValue year p n
  = if (year - yearBuilt p >=? 15)
    then if finite_nonzero (price p * 0.008 / 12) then 0 else nan
    else 0.
Proof.
  unfold calculateRentStabilizationBonusValue.
  destruct (year - yearBuilt p <? 15) eqn:Hlt.
  - rewrite (ltb_not_leb _ _ Hlt). reflexivity.
  - destruct (year - yearBuilt p >=? 15) eqn:Hge.
    + rewrite (boostScore_eligible _ _ _ _ Hge).
      destruct (finite_nonzero _); reflexivity.
    + rewrite (boostScore_ineligible _ _ _ _ Hge). reflexivity.
Qed.

(** C5, as stated, fails: an eligible property with a market rent of 0 gets
    [0 * vb / 0 = NaN] as its boost score, not 0, and a house listed at a
    price of 0 gets a NaN rent-stabilization bonus. *)
Lemma boostScore_not_always_zero :
  ~ (forall year built rent rate,
       Boost.boostScore (calculateRentStabilizationBoost year built rent rate) = 0)
  /\ ~ (forall year p n nearby,
          rentStabilizationBonus (calculateDealScore year p n nearby) = 0).
Proof.
  split; intros H.
  - specialize (H 2026 1960 0 (0.05 + 0.034)).
    apply (f_equal is_nan) in H. vm_compute in H. discriminate.
  - specialize (H 2026 (Samples.with_price 0 Samples.house) Samples.area None).
    apply (f_equal is_nan) in H. vm_compute in H. discriminate.
Qed.

(** For an eligible property whose market rent is zero or not finite the
    boost score is NaN, and so is the bonus of the deal score. *)
Lemma boostScore_nan
  (year built rent rate : float)
  (p : PropertyMetrics) (n : NeighborhoodData) (nearby : option (list PropertyMetrics)) :
  ((year - built >=? 15) = true -> finite_nonzero rent = false ->
   Boost.boostScore (calculateRentStabilizationBoost year built rent rate) = nan)
  /\ ((year - yearBuilt p >=? 15) = true ->
      finite_nonzero (price p * 0.008 / 12) = false ->
      rentStabilizationBonus (calculateDealScore year p n nearby) = nan).
Proof.
  change (rentStabilizationBonus (calculateDealScore year p n nearby))
    with (calculateRentStabilizationBonusValue year p n).
  rewrite calculateRentStabilizationBonusValue_cases.
  split; [intros E F; rewrite (boostScore_eligible _ _ _ _ E), F; reflexivity|].
  intros -> ->. reflexivity.
Qed.

(** C5 (amended): with the inflation constant 3.4 the volatility benefit
    [0.08 - 0.084] is negative, so the boost score is 0 for every ineligible
    property and for every market rent that is a nonzero finite number,
    whatever the construction year and the assumed increase rate.
    Consequently [rentStabilizationBonus] is 0 for every property that is
    not eligible or whose estimated rent [price * 0.008 / 12] is a nonzero
    finite number. *)
Theorem boostScore_zero
  (year built rent rate : float)
  (p : PropertyMetrics) (n : NeighborhoodData) (nearby : option (list PropertyMetrics)) :
  let info := checkRentCapEligibility year built in
  let b := Boost.boostScore (calculateRentStabilizationBoost year built rent rate) in
  let bonus := rentStabilizationBonus (calculateDealScore year p n nearby) in
  (volatilityBenefit <? 0) = true
  /\ (isEligible info = false -> b = 0)
  /\ (finite_nonzero rent = true -> b = 0)
  /\ ((year - yearBuilt p >=? 15) = false -> bonus = 0)
  /\ (finite_nonzero (price p * 0.008 / 12) = true -> bonus = 0).
Proof.
  cbv zeta.
  change (isEligible (checkRentCapEligibility year built)) with (year - built >=? 15).
  change (rentStabilizationBonus (calculateDealScore year p n nearby))
    with (calculateRentStabilizationBonusValue year p n).
  rewrite calculateRentStabilizationBonusValue_cases.
  split; [reflexivity|].
  split; [apply boostScore_ineligible|].
  split.
  { intros F. destruct (year - built >=? 15) eqn:E.
    - rewrite (boostScore_eligible _ _ _ _ E), F. reflexivity.
    - apply boostScore_ineligible, E. }
  split; [intros ->; reflexivity|].
  intros ->. destruct (year - yearBuilt p >=? 15); reflexivity.
Qed.

(** The sample house at the pinned year 2026: rent 1500 gives a boost of 0,
    and its own bonus is 0. *)
Lemma boostScore_zero_witness :
  Boost.boostScore (calculateRentStabilizationBoost 2026 1960 1500 (0.05 + 0.034)) = 0
  /\ rentStabilizationBonus (calculateDealScore 2026 Samples.house Samples.area None) = 0.
Proof.
  pose proof (boostScore_zero 2026 1960 1500 (0.05 + 0.034)
                Samples.house Samples.area None)
    as (_ & _ & B & _ & R).
  split; [apply B; reflexivity|apply R; reflexivity].
Defined.

(** C8: the assumed increase rate is not used: two calls that differ only in
    it return the same result, boost score included.  For a nonzero (finite)
    market rent the score is [clamp(0, 20, volatilityBenefit * 100)], where
    [volatilityBenefit] is the [0.08 - maxIncreasePercentage / 100] of an
    eligible property. *)
Theorem calculateRentStabilizationBoost_rate_unused
  (year built rent rate1 rate2 : float) :
  let info := checkRentCapEligibility year built in
  calculateRentStabilizationBoost year built rent rate1
  = calculateRentStabilizationBoost year built rent rate2
  /\ Boost.boostScore (calculateRentStabilizationBoost year built rent rate1)
     = Boost.boostScore (calculateRentStabilizationBoost year built rent rate2)
  /\ (finite_nonzero rent = true ->
      Boost.boostScore (calculateRentStabilizationBoost year built rent rate1)
      = Math_min 20 (Math_max 0 (volatilityBenefit * 100)))
  /\ (isEligible info = true ->
      volatilityBenefit = 0.08 - maxIncreasePercentage info / 100).
Proof.
  cbv zeta. split; [reflexivity|]. split; [reflexivity|].
  unfold checkRentCapEligibility. cbn [isEligible maxIncreasePercentage].
  split.
  - intros F. destruct (year - built >=? 15) eqn:E.
    + rewrite (boostScore_eligible _ _ _ _ E), F. reflexivity.
    + rewrite (boostScore_ineligible _ _ _ _ E). reflexivity.
  - intros ->. reflexivity.
Qed.

Lemma calculateRentStabilizationBoost_rate_unused_witness :
  Boost.boostScore (calculateRentStabilizationBoost 2026 1960 1500 0.084)
  = Boost.boostScore (calculateRentStabilizationBoost 2026 1960 1500 0.5)
  /\ Boost.boostScore (calculateRentStabilizationBoost 2026 1960 1500 0.084)
     = Math_min 20 (Math_max 0 ((0.08 - (5.0 + 3.4) / 100) * 100)).
Proof.
  pose proof (calculateRentStabilizationBoost_rate_unused 2026 1960 1500 0.084 0.5)
    as (_ & I & C & _).
  split; [exact I|].
  apply C; reflexivity.
Defined.

(** ** The price advantage *)

Lemma calculatePriceAdvantage_priceStep p n :
  calculatePriceAdvantage p n = priceStep (priceRatio p n).
Proof. reflexivity. Qed.

Lemma leb_false_below (t t' r : float) :
  (t' <=? t) = true -> (r <=? t) = false -> (r <=? t') = false.
Proof.
  intros Ht Hr. destruct (r <=? t') eqn:E; trivial.
  rewrite (leb_trans r t' t E Ht) in Hr. discriminate.
Qed.

(** Above a threshold, every smaller threshold is missed too. *)
Ltac above H :=
  match type of H with
  | (?t0 <? ?r) = true =>
      repeat match goal with
      | |- context [r <=? ?t] =>
          rewrite (leb_false_below t0 t r eq_refl (ltb_not_leb t0 r H))
      end
  end.

Lemma priceStep_buckets r :
  ((r <=? 0.8) = true -> priceStep r = 40)
  /\ ((0.8 <? r) = true -> (r <=? 0.9) = true -> priceStep r = 35)
  /\ ((0.9 <? r) = true -> (r <=? 0.95) = true -> priceStep r = 30)
  /\ ((0.95 <? r) = true -> (r <=? 1.0) = true -> priceStep r = 25)
  /\ ((1.0 <? r) = true -> (r <=? 1.05) = true -> priceStep r = 20)
  /\ ((1.05 <? r) = true -> (r <=? 1.1) = true -> priceStep r = 15)
  /\ ((1.1 <? r) = true -> (r <=? 1.2) = true -> priceStep r = 10)
  /\ ((1.2 <? r) = true -> priceStep r = 5).
Proof.
  unfold priceStep.
  repeat split; intros Hlo; try intros Hhi.
  - rewrite Hlo. reflexivity.
  - above Hlo. rewrite Hhi. reflexivity.
  - above Hlo. rewrite Hhi. reflexivity.
  - above Hlo. rewrite Hhi. reflexivity.
  - above Hlo. rewrite Hhi. reflexivity.
  - above Hlo. rewrite Hhi. reflexivity.
  - above Hlo. rewrite Hhi. reflexivity.
  - above Hlo. reflexivity.
Qed.

Lemma priceStep_antitone r1 r2 :
  (r1 <=? r2) = true -> (priceStep r2 <=? priceStep r1) = true.
Proof.
  intros H. unfold priceStep.
  destruct (r2 <=? 0.8) eqn:A1; [|destruct (r2 <=? 0.9) eqn:A2;
    [|destruct (r2 <=? 0.95) eqn:A3; [|destruct (r2 <=? 1.0) eqn:A4;
    [|destruct (r2 <=? 1.05) eqn:A5; [|destruct (r2 <=? 1.1) eqn:A6;
    [|destruct (r2 <=? 1.2) eqn:A7]]]]]];
  (destruct (r1 <=? 0.8) eqn:B1; [|destruct (r1 <=? 0.9) eqn:B2;
    [|destruct (r1 <=? 0.95) eqn:B3; [|destruct (r1 <=? 1.0) eqn:B4;
    [|destruct (r1 <=? 1.05) eqn:B5; [|destruct (r1 <=? 1.1) eqn:B6;
    [|destruct (r1 <=? 1.2) eqn:B7]]]]]]);
  try reflexivity;
  match goal with
  | H2 : (r2 <=? ?t) = true, H1 : (r1 <=? ?t) = false |- _ =>
      rewrite (leb_trans r1 r2 t H H2) in H1; discriminate
  end.
Qed.

(** C2: the price advantage is a step function of the ratio
    [(price/sqft)/medianPricePerSqft] alone, with buckets inclusive on their
    upper bound ([<= 0.80] gives 40, [<= 0.90] gives 35, [<= 0.95] gives 30,
    [<= 1.00] gives 25, [<= 1.05] gives 20, [<= 1.10] gives 15, [<= 1.20]
    gives 10, anything larger gives 5), and it never increases when the ratio
    increases.  A ratio of exactly 0.80 gives 40; a ratio strictly above 0.80
    and up to 0.90 gives 35. *)
Theorem calculatePriceAdvantage_step_function
  (p : PropertyMetrics) (n : NeighborhoodData) :
  let r := priceRatio p n in
  let s := calculatePriceAdvantage p n in
  ((r <=? 0.8) = true -> s = 40)
  /\ ((0.8 <? r) = true -> (r <=? 0.9) = true -> s = 35)
  /\ ((0.9 <? r) = true -> (r <=? 0.95) = true -> s = 30)
  /\ ((0.95 <? r) = true -> (r <=? 1.0) = true -> s = 25)
  /\ ((1.0 <? r) = true -> (r <=? 1.05) = true -> s = 20)
  /\ ((1.05 <? r) = true -> (r <=? 1.1) = true -> s = 15)
  /\ ((1.1 <? r) = true -> (r <=? 1.2) = true -> s = 10)
  /\ ((1.2 <? r) = true -> s = 5)
  /\ (r = 0.8 -> s = 40)
  /\ (forall p' n', priceRatio p' n' = r -> calculatePriceAdvantage p' n' = s)
  /\ (forall p' n', (r <=? priceRatio p' n') = true ->
                    (calculatePriceAdvantage p' n' <=? s) = true).
Proof.
  cbv zeta. rewrite calculatePriceAdvantage_priceStep.
  pose proof (priceStep_buckets (priceRatio p n))
    as (B1 & B2 & B3 & B4 & B5 & B6 & B7 & B8).
  repeat split; trivial.
  - intros E. apply B1. rewrite E. reflexivity.
  - intros p' n' E. rewrite calculatePriceAdvantage_priceStep, E. reflexivity.
  - intros p' n' E. rewrite calculatePriceAdvantage_priceStep.
    apply priceStep_antitone, E.
Qed.

(** The sample house (ratio exactly 0.8) scores 40; listed at 800000.1
    (ratio 0.8000001) or at 850000 (ratio 0.85) it scores 35, which is not
    more. *)
Lemma calculatePriceAdvantage_step_function_witness :
  calculatePriceAdvantage Samples.house Samples.area = 40
  /\ calculatePriceAdvantage (Samples.with_price 800000.1 Samples.house) Samples.area = 35
  /\ calculatePriceAdvantage (Samples.with_price 850000 Samples.house) Samples.area = 35
  /\ (calculatePriceAdvantage (Samples.with_price 850000 Samples.house) Samples.area
       <=? calculatePriceAdvantage Samples.house Samples.area) = true.
Proof.
  pose proof (calculatePriceAdvantage_step_function Samples.house Samples.area)
    as (B1 & _ & _ & _ & _ & _ & _ & _ & _ & _ & M).
  pose proof (calculatePriceAdvantage_step_function
                (Samples.with_price 850000 Samples.house) Samples.area)
    as (_ & B2 & _).
  pose proof (calculatePriceAdvantage_step_function
                (Samples.with_price 800000.1 Samples.house) Samples.area)
    as (_ & B2' & _).
  split; [apply B1; reflexivity|].
  split; [apply B2'; reflexivity|].
  split; [apply B2; reflexivity|].
  apply M. reflexivity.
Defined.

(** ** The breakdown and the location bonus *)

(** C9: the breakdown of [calculateDealScore] always has exactly five
    entries, in the order price advantage, size/layout, age and rent
    stabilization (one combined entry), location/amenities, market timing;
    so the two entries [generateInvestmentRecommendation] reads by position
    exist and are the price-advantage and the size/layout components. *)
Theorem calculateDealScore_breakdown_order
  (year : float) (p : PropertyMetrics) (n : NeighborhoodData)
  (nearby : option (list PropertyMetrics)) :
  let d := calculateDealScore year p n nearby in
  List.length (breakdown d) = 5%nat
  /\ map component (breakdown d)
     = ["Price Advantage"; "Size & Layout"; "Age & Rent Stabilization";
        "Location & Amenities"; "Market Timing"]
  /\ map score (breakdown d)
     = [priceAdvantage d; sizeAdvantage d;
        ageAdvantage d + rentStabilizationBonus d;
        locationBonus d; marketTimingBonus d]
  /\ map maxScore (breakdown d) = [40; 15; 25; 10; 10]
  /\ option_map component (nth_error (breakdown d) 0) = Some "Price Advantage"
  /\ option_map component (nth_error (breakdown d) 1) = Some "Size & Layout"
  /\ exists r, generateInvestmentRecommendation year d p n = Some r
       /\ nth_error (Recommendation.reasoning r) 5 = Some (Lit "price advantage")
       /\ nth_error (Recommendation.reasoning r) 11 = Some (Lit "size & layout").
Proof.
  cbv zeta. repeat split.
  unfold generateInvestmentRecommendation.
  cbn [calculateDealScore breakdown nth_error app].
  eexists. split; [reflexivity|]. split; reflexivity.
Qed.

Lemma calculateLocationBonus_steps (n : NeighborhoodData) :
  calculateLocationBonus n
  = Math_min 10 (Math_max 0
      (transit_step n (crime_step (crimeRate n) (location_before_crime n)))).
Proof. reflexivity. Qed.

(** A crime rate that is neither 0 nor NaN adjusts the score by its value
    alone: 2 up to 20, 1 up to 40, nothing above. *)
Lemma crime_step_truthy (crime score : float) :
  ToBoolean crime = true ->
  ((crime <=? 20) = true -> crime_step (Some crime) score = score + 2)
  /\ ((20 <? crime) = true -> (crime <=? 40) = true ->
      crime_step (Some crime) score = score + 1)
  /\ ((40 <? crime) = true -> crime_step (Some crime) score = score).
Proof.
  intros T. unfold crime_step. rewrite T.
  repeat split; intros Hlo; try intros Hhi.
  - rewrite Hlo. reflexivity.
  - above Hlo. rewrite Hhi. reflexivity.
  - above Hlo. reflexivity.
Qed.

(** C7 on the code: a crime rate that is present and equal to 0 is treated
    as an absent one.  [if (neighborhood.crimeRate)] is false for 0, so the
    "very safe" adjustment of 2 that every other rate up to 20 gets is not
    made: before clamping the score is the one without a crime rate, not 2
    more, and the bonus is the one of a neighborhood with no crime rate. *)
Theorem calculateLocationBonus_zero_crimeRate (n : NeighborhoodData) (score : float) :
  (0 <=? 20) = true
  /\ crime_step (Some 0) score = crime_step None score
  /\ crime_step None score = score
  /\ calculateLocationBonus (Samples.with_crimeRate (Some 0) n)
     = calculateLocationBonus (Samples.with_crimeRate None n)
  /\ calculateLocationBonus (Samples.with_crimeRate None Samples.area) = 5
  /\ calculateLocationBonus (Samples.with_crimeRate (Some 0) Samples.area) = 5
  /\ calculateLocationBonus (Samples.with_crimeRate (Some 1) Samples.area) = 7
  /\ calculateLocationBonus (Samples.with_crimeRate (Some 20) Samples.area) = 7.
Proof.
  split; [reflexivity|].
  split; [reflexivity|].
  split; [reflexivity|].
  split; [rewrite !calculateLocationBonus_steps; reflexivity|].
  repeat split.
Qed.

(** ** The ranges of the scores *)

Lemma calculatePriceAdvantage_values p n :
  In (calculatePriceAdvantage p n) price_values.
Proof. unfold calculatePriceAdvantage. branches; member. Qed.

Lemma calculateSizeAdvantage_values p n :
  In (calculateSizeAdvantage p n) size_values.
Proof. unfold calculateSizeAdvantage. branches; member. Qed.

Lemma calculateAgeAdvantage_values year p n :
  In (calculateAgeAdvantage year p n) age_values.
Proof. unfold calculateAgeAdvantage. branches; member. Qed.

Lemma calculateLocationBonus_values n :
  In (calculateLocationBonus n) location_values.
Proof. unfold calculateLocationBonus. branches; member. Qed.

Lemma calculateMarketTimingBonus_values n :
  In (calculateMarketTimingBonus n) timing_values.
Proof. unfold calculateMarketTimingBonus. branches; member. Qed.

Lemma totalScore_total_of year p n nearby :
  totalScore (calculateDealScore year p n nearby)
  = total_of (calculatePriceAdvantage p n) (calculateSizeAdvantage p n)
             (calculateAgeAdvantage year p n)
             (calculateRentStabilizationBonusValue year p n)
             (calculateLocationBonus n) (calculateMarketTimingBonus n).
Proof. reflexivity. Qed.

Lemma for_all_totals_spec vr test year p n nearby :
  for_all_totals vr test = true ->
  calculateRentStabilizationBonusValue year p n = vr ->
  test (totalScore (calculateDealScore year p n nearby)) = true.
Proof.
  unfold for_all_totals. intros H E.
  rewrite totalScore_total_of, E.
  rewrite forallb_forall in H.
  specialize (H _ (calculatePriceAdvantage_values p n)).
  rewrite forallb_forall in H.
  specialize (H _ (calculateSizeAdvantage_values p n)).
  rewrite forallb_forall in H.
  specialize (H _ (calculateAgeAdvantage_values year p n)).
  rewrite forallb_forall in H.
  specialize (H _ (calculateLocationBonus_values n)).
  rewrite forallb_forall in H.
  exact (H _ (calculateMarketTimingBonus_values n)).
Qed.

(** The five sub-scores that do not depend on the rent cap are in range and
    finite for every input. *)
Lemma priceAdvantage_in_range p n :
  in_range 0 40 (calculatePriceAdvantage p n) = true
  /\ is_finite (calculatePriceAdvantage p n) = true.
Proof.
  split; apply (forallb_In _ price_values);
    try apply calculatePriceAdvantage_values; reflexivity.
Qed.

Lemma sizeAdvantage_in_range p n :
  in_range 0 15 (calculateSizeAdvantage p n) = true
  /\ is_finite (calculateSizeAdvantage p n) = true.
Proof.
  split; apply (forallb_In _ size_values);
    try apply calculateSizeAdvantage_values; reflexivity.
Qed.

Lemma ageAdvantage_in_range year p n :
  in_range 0 15 (calculateAgeAdvantage year p n) = true.
Proof.
  apply (forallb_In _ age_values);
    try apply calculateAgeAdvantage_values; reflexivity.
Qed.

Lemma locationBonus_in_range n :
  in_range 0 10 (calculateLocationBonus n) = true.
Proof.
  apply (forallb_In _ location_values);
    try apply calculateLocationBonus_values; reflexivity.
Qed.

Lemma marketTimingBonus_in_range n :
  in_range 0 10 (calculateMarketTimingBonus n) = true.
Proof.
  apply (forallb_In _ timing_values);
    try apply calculateMarketTimingBonus_values; reflexivity.
Qed.

Lemma ageAdvantage_finite year p n : is_finite (calculateAgeAdvantage year p n) = true.
Proof.
  apply (forallb_In _ age_values);
    try apply calculateAgeAdvantage_values; reflexivity.
Qed.

Lemma locationBonus_finite n : is_finite (calculateLocationBonus n) = true.
Proof.
  apply (forallb_In _ location_values);
    try apply calculateLocationBonus_values; reflexivity.
Qed.

Lemma marketTimingBonus_finite n : is_finite (calculateMarketTimingBonus n) = true.
Proof.
  apply (forallb_In _ timing_values);
    try apply calculateMarketTimingBonus_values; reflexivity.
Qed.

(** With a rent bonus of 0 the total is a finite number of [0, 100];
    with a NaN rent bonus the total is NaN. *)
Lemma totalScore_with_bonus year p n nearby :
  (calculateRentStabilizationBonusValue year p n = 0 ->
   in_range 0 100 (totalScore (calculateDealScore year p n nearby)) = true
   /\ is_finite (totalScore (calculateDealScore year p n nearby)) = true)
  /\ (calculateRentStabilizationBonusValue year p n = nan ->
      totalScore (calculateDealScore year p n nearby) = nan).
Proof.
  split; intros E.
  - split;
      apply (fun H => for_all_totals_spec 0 _ year p n nearby H E);
      vm_compute; reflexivity.
  - apply is_nan_eq.
    apply (fun H => for_all_totals_spec nan _ year p n nearby H E).
    vm_compute; reflexivity.
Qed.

(** C1, as stated, fails: a house of 1960 listed at a price of 0 has an
    estimated market rent of 0, so its rent-stabilization bonus and its total
    score are NaN, which lies in no range. *)
Lemma calculateDealScore_out_of_range :
  ~ (forall year p n nearby,
       let d := calculateDealScore year p n nearby in
       in_range 0 100 (totalScore d) = true
       /\ in_range 0 40 (priceAdvantage d) = true
       /\ in_range 0 15 (sizeAdvantage d) = true
       /\ in_range 0 15 (ageAdvantage d) = true
       /\ in_range 0 10 (rentStabilizationBonus d) = true
       /\ in_range 0 10 (locationBonus d) = true
       /\ in_range 0 10 (marketTimingBonus d) = true).
Proof.
  intros H.
  specialize (H 2026 (Samples.with_price 0 Samples.house) Samples.area None).
  destruct H as (H & _). vm_compute in H. discriminate.
Qed.

(** For an eligible property whose estimated rent is zero or not finite,
    the NaN bonus makes the total NaN. *)
Lemma calculateDealScore_nan
  (year : float) (p : PropertyMetrics) (n : NeighborhoodData)
  (nearby : option (list PropertyMetrics)) :
  (year - yearBuilt p >=? 15) = true ->
  finite_nonzero (price p * 0.008 / 12) = false ->
  totalScore (calculateDealScore year p n nearby) = nan.
Proof.
  intros E F. apply totalScore_with_bonus.
  rewrite calculateRentStabilizationBonusValue_cases, E, F. reflexivity.
Qed.

(** C1 (amended): for every property and neighborhood, with the evaluation
    year pinned, [priceAdvantage] is in [0,40], [sizeAdvantage] and
    [ageAdvantage] in [0,15], [locationBonus] and [marketTimingBonus] in
    [0,10]; and whenever the property is not rent-cap eligible, or its
    estimated market rent [price * 0.008 / 12] is a nonzero finite number,
    [rentStabilizationBonus] is in [0,10] and [totalScore] in [0,100]. *)
Theorem calculateDealScore_ranges
  (year : float) (p : PropertyMetrics) (n : NeighborhoodData)
  (nearby : option (list PropertyMetrics)) :
  let d := calculateDealScore year p n nearby in
  let eligible := year - yearBuilt p >=? 15 in
  let rent := price p * 0.008 / 12 in
  in_range 0 40 (priceAdvantage d) = true
  /\ in_range 0 15 (sizeAdvantage d) = true
  /\ in_range 0 15 (ageAdvantage d) = true
  /\ in_range 0 10 (locationBonus d) = true
  /\ in_range 0 10 (marketTimingBonus d) = true
  /\ ((eligible = true -> finite_nonzero rent = true) ->
      in_range 0 10 (rentStabilizationBonus d) = true
      /\ in_range 0 100 (totalScore d) = true).
Proof.
  cbv zeta.
  split; [apply priceAdvantage_in_range|].
  split; [apply sizeAdvantage_in_range|].
  split; [apply ageAdvantage_in_range|].
  split; [apply locationBonus_in_range|].
  split; [apply marketTimingBonus_in_range|].
  change (rentStabilizationBonus (calculateDealScore year p n nearby))
    with (calculateRentStabilizationBonusValue year p n).
  intros H.
  assert (E0 : calculateRentStabilizationBonusValue year p n = 0).
  { rewrite calculateRentStabilizationBonusValue_cases.
    destruct (year - yearBuilt p >=? 15); [|reflexivity].
    rewrite (H eq_refl). reflexivity. }
  split; [rewrite E0; reflexivity|].
  apply (totalScore_with_bonus year p n nearby), E0.
Qed.

(** The sample house at the pinned year 2026 scores 78.5. *)
Lemma calculateDealScore_ranges_witness :
  let d := calculateDealScore 2026 Samples.house Samples.area None in
  in_range 0 10 (rentStabilizationBonus d) = true
  /\ in_range 0 100 (totalScore d) = true
  /\ totalScore d = 78.5.
Proof.
  pose proof (calculateDealScore_ranges 2026 Samples.house Samples.area None)
    as (_ & _ & _ & _ & _ & R).
  destruct (R (fun _ => eq_refl)) as [R1 R2].
  split; [exact R1|]. split; [exact R2|]. reflexivity.
Defined.

(** X2: whenever the rent-stabilization bonus is a number (the property is not
    eligible, or its estimated rent is a nonzero finite number), the total lies
    between 25.5 and 90: the final clamp to [0, 100] never cuts. *)
Theorem totalScore_at_most_90
  (year : float) (p : PropertyMetrics) (n : NeighborhoodData)
  (nearby : option (list PropertyMetrics)) :
  ((year - yearBuilt p >=? 15) = true ->
   finite_nonzero (price p * 0.008 / 12) = true) ->
  in_range 25.5 90 (totalScore (calculateDealScore year p n nearby)) = true.
Proof.
  intros H.
  apply (for_all_totals_spec 0); [vm_compute; reflexivity|].
  rewrite calculateRentStabilizationBonusValue_cases.
  destruct (year - yearBuilt p >=? 15); [|reflexivity].
  rewrite (H eq_refl). reflexivity.
Qed.

Lemma totalScore_at_most_90_witness :
  in_range 25.5 90 (totalScore (calculateDealScore 2026 Samples.house Samples.area None))
  = true.
Proof.
  apply totalScore_at_most_90. intros _. reflexivity.
Defined.

(** ** Zero denominators *)

(** Dividing by [+0]: an infinity with the sign of the numerator, and NaN
    for [0 / 0] and [NaN / 0]. *)
Lemma div_by_zero (x : float) :
  x / 0 = if 0 <? x then infinity else if x <? 0 then neg_infinity else nan.
Proof.
  apply Prim2SF_inj.
  rewrite div_spec, !FloatAxioms.ltb_spec.
  change (Prim2SF 0) with (S754_zero false).
  destruct (Prim2SF x) as [s|s| |s m e]; try destruct s; reflexivity.
Qed.

Lemma calculateSizeAdvantage_layout p n :
  calculateSizeAdvantage p n
  = Math_min 15 (Math_max 0 (type_step p (adjust (layout_adjustment p) (size_step p n)))).
Proof.
  unfold calculateSizeAdvantage, layout_adjustment, size_step, type_step, adjust.
  cbv zeta. branches; reflexivity.
Qed.

Lemma layout_adjustment_no_baths p :
  baths p = 0 ->
  layout_adjustment p = if 0 <? beds p then minus_one else unchanged.
Proof.
  intros E. unfold layout_adjustment. rewrite E, div_by_zero.
  destruct (0 <? beds p); [reflexivity|].
  destruct (beds p <? 0); reflexivity.
Qed.

(** C10, as stated, fails: with three bedrooms and no bathroom the ratio is
    [3 / 0 = +Infinity], which is above 2, and 1 is subtracted: the sample
    house then scores 10.5 for size, not the 11.5 it would without a layout
    adjustment. *)
Lemma layout_adjusted_without_baths :
  ~ (forall p n, baths p = 0 ->
       layout_adjustment p = unchanged
       /\ calculateSizeAdvantage p n
          = Math_min 15 (Math_max 0 (type_step p (size_step p n))))
  /\ calculateSizeAdvantage (Samples.with_rooms 3 0 Samples.house) Samples.area = 10.5
  /\ Math_min 15 (Math_max 0 (type_step Samples.house (size_step Samples.house Samples.area)))
     = 11.5.
Proof.
  split.
  - intros H.
    destruct (H (Samples.with_rooms 3 0 Samples.house) Samples.area eq_refl) as [H1 _].
    vm_compute in H1. discriminate.
  - split; reflexivity.
Qed.

(** C10 (amended): the scorer has no zero-denominator guard.  With
    [baths = 0] the bedroom/bathroom ratio is [+Infinity] when [beds > 0], and
    1 is subtracted as for any ratio above 2; no adjustment is made only when
    [beds] is not above 0 (the ratio is then NaN or [-Infinity]); 2 is never
    added.  Every sub-score computed from a quotient stays finite whatever
    the denominators (zero floor area, zero median price per area, zero
    bathroom count included): the price, size, age, location and timing
    sub-scores are finite for every input, and the total is finite whenever
    the property is not rent-cap eligible or its estimated rent
    [price * 0.008 / 12] is a nonzero finite number. *)
Theorem zero_denominators
  (year : float) (p : PropertyMetrics) (n : NeighborhoodData)
  (nearby : option (list PropertyMetrics)) :
  let d := calculateDealScore year p n nearby in
  (baths p = 0 -> (0 <? beds p) = true ->
   layout_adjustment p = minus_one
   /\ sizeAdvantage d = Math_min 15 (Math_max 0 (type_step p (size_step p n - 1))))
  /\ (baths p = 0 -> (0 <? beds p) = false ->
      layout_adjustment p = unchanged
      /\ sizeAdvantage d = Math_min 15 (Math_max 0 (type_step p (size_step p n))))
  /\ is_finite (priceAdvantage d) = true
  /\ is_finite (sizeAdvantage d) = true
  /\ is_finite (ageAdvantage d) = true
  /\ is_finite (locationBonus d) = true
  /\ is_finite (marketTimingBonus d) = true
  /\ (((year - yearBuilt p >=? 15) = true ->
       finite_nonzero (price p * 0.008 / 12) = true) ->
      is_finite (rentStabilizationBonus d) = true
      /\ is_finite (totalScore d) = true).
Proof.
  cbv zeta.
  change (sizeAdvantage (calculateDealScore year p n nearby))
    with (calculateSizeAdvantage p n).
  rewrite calculateSizeAdvantage_layout.
  split; [intros E B; rewrite (layout_adjustment_no_baths p E), B; split; reflexivity|].
  split; [intros E B; rewrite (layout_adjustment_no_baths p E), B; split; reflexivity|].
  rewrite <- calculateSizeAdvantage_layout.
  split; [apply priceAdvantage_in_range|].
  split; [apply sizeAdvantage_in_range|].
  split; [apply ageAdvantage_finite|].
  split; [apply locationBonus_finite|].
  split; [apply marketTimingBonus_finite|].
  intros H.
  change (rentStabilizationBonus (calculateDealScore year p n nearby))
    with (calculateRentStabilizationBonusValue year p n).
  assert (E0 : calculateRentStabilizationBonusValue year p n = 0).
  { rewrite calculateRentStabilizationBonusValue_cases.
    destruct (year - yearBuilt p >=? 15); [|reflexivity].
    rewrite (H eq_refl). reflexivity. }
  split; [rewrite E0; reflexivity|].
  apply (totalScore_with_bonus year p n nearby), E0.
Qed.

(** Three bedrooms and no bathroom in the sample house: 1 is subtracted, and
    the score stays finite. *)
Lemma zero_denominators_witness :
  let p := Samples.with_rooms 3 0 Samples.house in
  let d := calculateDealScore 2026 p Samples.area None in
  layout_adjustment p = minus_one
  /\ is_finite (totalScore d) = true.
Proof.
  pose proof (zero_denominators 2026 (Samples.with_rooms 3 0 Samples.house)
                Samples.area None)
    as (L & _ & _ & _ & _ & _ & _ & T).
  split; [apply L; reflexivity|].
  apply T. intros _. reflexivity.
Defined.

(** ** Score categories *)

Lemma leb_false_above (t t' s : float) :
  (t <=? t') = true -> (t <=? s) = false -> (t' <=? s) = false.
Proof.
  intros Ht Hs. destruct (t' <=? s) eqn:E; trivial.
  rewrite (leb_trans t t' s Ht E) in Hs. discriminate.
Qed.

(** Below a threshold, every larger threshold is missed too. *)
Ltac below H :=
  match type of H with
  | (?s <? ?t0) = true =>
      repeat match goal with
      | |- context [?t <=? s] =>
          rewrite (leb_false_above t0 t s eq_refl (ltb_not_leb s t0 H))
      end
  end.

(** X1: the five bands of [getDealScoreCategory], inclusive on their lower edge:
    90 and above is an excellent deal, [80, 90) a great one, [70, 80) a good
    one, [60, 70) an average one, and anything below 60 a poor one. *)
Theorem getDealScoreCategory_bands (s : float) :
  ((s >=? 90) = true -> category (getDealScoreCategory s) = "Excellent Deal")
  /\ ((s <? 90) = true -> (s >=? 80) = true ->
      category (getDealScoreCategory s) = "Great Deal")
  /\ ((s <? 80) = true -> (s >=? 70) = true ->
      category (getDealScoreCategory s) = "Good Deal")
  /\ ((s <? 70) = true -> (s >=? 60) = true ->
      category (getDealScoreCategory s) = "Average Deal")
  /\ ((s <? 60) = true -> category (getDealScoreCategory s) = "Poor Deal").
Proof.
  unfold getDealScoreCategory.
  repeat split; intros Hhi; try intros Hlo.
  - rewrite Hhi. reflexivity.
  - below Hhi. rewrite Hlo. reflexivity.
  - below Hhi. rewrite Hlo. reflexivity.
  - below Hhi. rewrite Hlo. reflexivity.
  - below Hhi. reflexivity.
Qed.

(** The boundary scores of the specification. *)
Lemma getDealScoreCategory_bands_witness :
  category (getDealScoreCategory 89.9) = "Great Deal"
  /\ category (getDealScoreCategory 90.0) = "Excellent Deal"
  /\ category (getDealScoreCategory 59.9) = "Poor Deal"
  /\ category (getDealScoreCategory 60.0) = "Average Deal".
Proof.
  pose proof (getDealScoreCategory_bands 89.9) as (_ & G & _).
  pose proof (getDealScoreCategory_bands 90.0) as (E & _).
  pose proof (getDealScoreCategory_bands 59.9) as (_ & _ & _ & _ & P).
  pose proof (getDealScoreCategory_bands 60.0) as (_ & _ & _ & A & _).
  split; [apply G; reflexivity|].
  split; [apply E; reflexivity|].
  split; [apply P; reflexivity|].
  apply A; reflexivity.
Defined.

(** ** Strings: substrings and lower case *)

Import RentCapText.

Lemma prefix_app (p s : string) :
  prefix p s = true <-> exists b, s = (p ++ b)%string.
Proof.
  revert s. induction p as [|c p IH]; intros s.
  - split; [intros _; exists s; reflexivity|intros _; destruct s; reflexivity].
  - destruct s as [|d s]; simpl.
    + split; [discriminate|intros [b H]; discriminate].
    + destruct (Ascii.ascii_dec c d) as [->|N].
      * rewrite IH. split; intros [b H]; exists b; congruence.
      * split; [discriminate|intros [b H]; congruence].
Qed.

Lemma includes_spec (s p : string) :
  includes s p = true <-> exists a b, s = (a ++ p ++ b)%string.
Proof.
  induction s as [|c s IH]; cbn [includes]; rewrite orb_true_iff, prefix_app.
  - split.
    + intros [[b H]|H]; [|discriminate]. exists EmptyString, b. exact H.
    + intros [a [b H]]. left. destruct a; [exists b; exact H|discriminate].
  - rewrite IH. split.
    + intros [[b H]|[a [b H]]].
      * exists EmptyString, b. exact H.
      * exists (String c a), b. simpl. congruence.
    + intros [a [b H]]. destruct a as [|d a].
      * left. exists b. exact H.
      * right. exists a, b. simpl in H. congruence.
Qed.

Lemma toLowerCase_app (a b : string) :
  toLowerCase (a ++ b) = (toLowerCase a ++ toLowerCase b)%string.
Proof. induction a as [|c a IH]; simpl; congruence. Qed.

(** A word written in any mix of cases is found in the lowered text. *)
Lemma includes_any_case (a w b kw : string) :
  toLowerCase w = kw -> includes (toLowerCase (a ++ w ++ b)) kw = true.
Proof.
  intros E. apply includes_spec.
  exists (toLowerCase a), (toLowerCase b).
  rewrite !toLowerCase_app, E. reflexivity.
Qed.

Lemma In_push_if (c : bool) (x s : string) (l : list string) :
  In x (push_if c s l) <-> In x l \/ (c = true /\ x = s).
Proof.
  unfold push_if. destruct c.
  - rewrite in_app_iff. simpl. intuition congruence.
  - intuition congruence.
Qed.

(** ** Further exemptions *)

Lemma checkAdditionalExemptions_In (label : string) (sf oo rb : bool) (x : string) :
  In x (Exemptions.exemptionReasons (checkAdditionalExemptions label sf oo rb))
  <-> (sf && negb oo = true /\ x = "Single-family home owned by small landlord (≤2 properties)")
      \/ (rb = true /\ x = "Recently constructed property")
      \/ ((mentions label "dorm" \/ mentions label "school")
          /\ x = "Educational institution housing")
      \/ ((mentions label "hotel" \/ mentions label "motel")
          /\ x = "Transient lodging")
      \/ ((mentions label "nonprofit" \/ mentions label "affordable")
          /\ x = "Restricted affordable housing").
Proof.
  unfold checkAdditionalExemptions, mentions.
  cbn [Exemptions.exemptionReasons].
  rewrite !In_push_if, !orb_true_iff, !includes_spec. simpl. tauto.
Qed.

(** X3: [checkAdditionalExemptions] lists each reason at most once and in
    the fixed order small landlord, recent construction, educational,
    transient, affordable.  The property is subject to AB 1482 exactly when
    the list is empty, that is when it is not a single-family home let by
    its owner, not recently built, and its label contains none of the six
    keywords in any letter case. *)
Theorem checkAdditionalExemptions_subject
  (label : string) (isSingleFamily ownerOccupied recentlyBuilt : bool) :
  let r := checkAdditionalExemptions label isSingleFamily ownerOccupied recentlyBuilt in
  subsequence (Exemptions.exemptionReasons r) all_reasons = true
  /\ (List.length (Exemptions.exemptionReasons r) <= 5)%nat
  /\ Exemptions.isSubjectToAB1482 r = negb (Exemptions.hasExemptions r)
  /\ (Exemptions.isSubjectToAB1482 r = true <-> Exemptions.exemptionReasons r = [])
  /\ (Exemptions.isSubjectToAB1482 r = true
      <-> (isSingleFamily = false \/ ownerOccupied = true)
          /\ recentlyBuilt = false
          /\ forall kw, In kw keywords -> ~ mentions label kw).
Proof.
  cbv zeta.
  assert (S : subsequence
                (Exemptions.exemptionReasons
                   (checkAdditionalExemptions label isSingleFamily ownerOccupied
                      recentlyBuilt)) all_reasons = true
              /\ (List.length
                    (Exemptions.exemptionReasons
                       (checkAdditionalExemptions label isSingleFamily ownerOccupied
                          recentlyBuilt)) <= 5)%nat).
  { unfold checkAdditionalExemptions. cbn [Exemptions.exemptionReasons].
    destruct (isSingleFamily && negb ownerOccupied), recentlyBuilt,
      (includes (toLowerCase label) "dorm" || includes (toLowerCase label) "school"),
      (includes (toLowerCase label) "hotel" || includes (toLowerCase label) "motel"),
      (includes (toLowerCase label) "nonprofit"
       || includes (toLowerCase label) "affordable");
      split; solve [reflexivity | cbn; lia]. }
  destruct S as [S1 S2].
  split; [exact S1|]. split; [exact S2|]. split; [reflexivity|].
  assert (E : Exemptions.isSubjectToAB1482
                (checkAdditionalExemptions label isSingleFamily ownerOccupied
                   recentlyBuilt) = true
              <-> Exemptions.exemptionReasons
                    (checkAdditionalExemptions label isSingleFamily ownerOccupied
                       recentlyBuilt) = []).
  { unfold checkAdditionalExemptions.
    cbn [Exemptions.isSubjectToAB1482 Exemptions.exemptionReasons].
    destruct (push_if _ _ _); cbn; split; congruence. }
  split; [exact E|].
  rewrite E. split.
  - intros N.
    assert (A : forall x,
               ~ In x (Exemptions.exemptionReasons
                         (checkAdditionalExemptions label isSingleFamily
                            ownerOccupied recentlyBuilt)))
      by (intros x; rewrite N; intros []).
    split; [|split].
    + destruct isSingleFamily, ownerOccupied; auto.
      exfalso. eapply A. apply checkAdditionalExemptions_In. left. split; reflexivity.
    + destruct recentlyBuilt; auto.
      exfalso. eapply A. apply checkAdditionalExemptions_In.
      right; left. split; reflexivity.
    + intros kw K M. simpl in K.
      destruct K as [<-|[<-|[<-|[<-|[<-|[<-|[]]]]]]];
        (eapply A; apply checkAdditionalExemptions_In);
        [ right; right; left; split; [left; exact M|reflexivity]
        | right; right; left; split; [right; exact M|reflexivity]
        | right; right; right; left; split; [left; exact M|reflexivity]
        | right; right; right; left; split; [right; exact M|reflexivity]
        | right; right; right; right; split; [left; exact M|reflexivity]
        | right; right; right; right; split; [right; exact M|reflexivity] ].
  - intros (F & R & K).
    destruct (Exemptions.exemptionReasons _) as [|x l] eqn:L; [reflexivity|].
    exfalso.
    assert (I : In x (Exemptions.exemptionReasons
                        (checkAdditionalExemptions label isSingleFamily
                           ownerOccupied recentlyBuilt)))
      by (rewrite L; left; reflexivity).
    apply checkAdditionalExemptions_In in I.
    destruct I as [[C _]|[[C _]|[[[M|M] _]|[[[M|M] _]|[[M|M] _]]]]].
    + destruct F as [-> | ->]; [discriminate|].
      destruct isSingleFamily; discriminate.
    + congruence.
    + apply (K "dorm"); simpl; auto.
    + apply (K "school"); simpl; auto.
    + apply (K "hotel"); simpl; auto.
    + apply (K "motel"); simpl; auto 10.
    + apply (K "nonprofit"); simpl; auto 10.
    + apply (K "affordable"); simpl; auto 10.
Qed.

(** A condominium let by its owner, with a plain label, is subject to the cap. *)
Lemma checkAdditionalExemptions_subject_witness :
  Exemptions.isSubjectToAB1482 (checkAdditionalExemptions "Condo" false false false) = true
  /\ Exemptions.exemptionReasons (checkAdditionalExemptions "Condo" false false false) = [].
Proof.
  pose proof (checkAdditionalExemptions_subject "Condo" false false false)
    as (_ & _ & _ & E & _).
  assert (S : Exemptions.isSubjectToAB1482
                (checkAdditionalExemptions "Condo" false false false) = true)
    by reflexivity.
  split; [exact S|apply E, S].
Defined.

(** X4: the label is matched by substring and without regard to letter
    case: the educational reason is listed exactly when the lowered label
    contains "dorm" or "school", the transient one exactly when it contains
    "hotel" or "motel", the affordable one exactly when it contains
    "nonprofit" or "affordable"; so a keyword written in any mix of cases,
    anywhere in the label, gives its reason and removes the property from
    the cap. *)
Theorem checkAdditionalExemptions_keywords
  (label : string) (isSingleFamily ownerOccupied recentlyBuilt : bool) :
  let reasons l :=
    Exemptions.exemptionReasons
      (checkAdditionalExemptions l isSingleFamily ownerOccupied recentlyBuilt) in
  (In "Educational institution housing" (reasons label)
   <-> mentions label "dorm" \/ mentions label "school")
  /\ (In "Transient lodging" (reasons label)
      <-> mentions label "hotel" \/ mentions label "motel")
  /\ (In "Restricted affordable housing" (reasons label)
      <-> mentions label "nonprofit" \/ mentions label "affordable")
  /\ (forall a w b,
        toLowerCase w = "hotel" \/ toLowerCase w = "motel" ->
        label = (a ++ w ++ b)%string ->
        In "Transient lodging" (reasons label)
        /\ Exemptions.isSubjectToAB1482
             (checkAdditionalExemptions label isSingleFamily ownerOccupied
                recentlyBuilt) = false).
Proof.
  cbv zeta.
  assert (T : In "Transient lodging"
                (Exemptions.exemptionReasons
                   (checkAdditionalExemptions label isSingleFamily ownerOccupied
                      recentlyBuilt))
              <-> mentions label "hotel" \/ mentions label "motel").
  { rewrite checkAdditionalExemptions_In. split.
    - intros [[_ C]|[[_ C]|[[_ C]|[[M _]|[_ C]]]]]; try discriminate. exact M.
    - intros M. right; right; right; left. split; [exact M|reflexivity]. }
  split; [|split; [exact T|split]].
  - rewrite checkAdditionalExemptions_In. split.
    + intros [[_ C]|[[_ C]|[[M _]|[[_ C]|[_ C]]]]]; try discriminate. exact M.
    + intros M. right; right; left. split; [exact M|reflexivity].
  - rewrite checkAdditionalExemptions_In. split.
    + intros [[_ C]|[[_ C]|[[_ C]|[[_ C]|[M _]]]]]; try discriminate. exact M.
    + intros M. right; right; right; right. split; [exact M|reflexivity].
  - intros a w b W L.
    assert (I : In "Transient lodging"
                  (Exemptions.exemptionReasons
                     (checkAdditionalExemptions label isSingleFamily ownerOccupied
                        recentlyBuilt))).
    { apply T. unfold mentions. rewrite L, !toLowerCase_app.
      destruct W as [W|W]; [left|right];
        exists (toLowerCase a), (toLowerCase b); rewrite W; reflexivity. }
    split; [exact I|].
    unfold checkAdditionalExemptions in *.
    cbn [Exemptions.isSubjectToAB1482 Exemptions.exemptionReasons] in *.
    destruct (push_if _ _ _); [destruct I|reflexivity].
Qed.

(** "Airport MOTEL 6": the keyword in capitals, inside the label. *)
Lemma checkAdditionalExemptions_keywords_witness :
  In "Transient lodging"
     (Exemptions.exemptionReasons
        (checkAdditionalExemptions "Airport MOTEL 6" false false false))
  /\ Exemptions.isSubjectToAB1482
       (checkAdditionalExemptions "Airport MOTEL 6" false false false) = false.
Proof.
  pose proof (checkAdditionalExemptions_keywords "Airport MOTEL 6" false false false)
    as (_ & _ & _ & C).
  apply (C "Airport " "MOTEL" " 6"); [right; reflexivity|reflexivity].
Defined.

(** ** The rent-cap notice *)

Lemma fold_left_bullets (reasons : list string) (notice : template) :
  fold_left (fun notice reason => (notice ++ [Lit "• "; Lit reason; Lit nl])%list)
            reasons notice
  = (notice ++ flat_map (fun reason => [Lit "• "; Lit reason; Lit nl]) reasons)%list.
Proof.
  revert notice. induction reasons as [|r rs IH]; intros notice; simpl.
  - rewrite app_nil_r. reflexivity.
  - rewrite IH, <- app_assoc. reflexivity.
Qed.

Lemma hasExemptions_In (label : string) (sf oo rb : bool) (x : string) :
  In x (Exemptions.exemptionReasons (checkAdditionalExemptions label sf oo rb)) ->
  Exemptions.hasExemptions (checkAdditionalExemptions label sf oo rb) = true.
Proof.
  unfold checkAdditionalExemptions.
  cbn [Exemptions.hasExemptions Exemptions.exemptionReasons].
  destruct (push_if _ _ _); [intros []|reflexivity].
Qed.

(** The three shapes of the result, by age eligibility and exemptions. *)
Lemma generateRentCapNotice_cases
  (year currentRent built : float) (label : string) (sf oo : option bool) :
  let n := generateRentCapNotice year currentRent built label sf oo in
  let x := checkAdditionalExemptions label (or_default sf false) (or_default oo false)
             (built >? 2009) in
  Notice.isEligible n = (year - built >=? 15) && negb (Exemptions.hasExemptions x)
  /\ Notice.maxIncrease n
     = MaxRentIncrease.maxIncrease (calculateMaxRentIncrease year currentRent built None)
  /\ (Exemptions.hasExemptions x = true ->
      Notice.complianceNotes n
      = ["Consult with legal counsel to confirm exemption status"]
      /\ forall reason, In reason (Exemptions.exemptionReasons x) ->
                        In (Lit reason) (Notice.notice n))
  /\ (Exemptions.hasExemptions x = false -> (year - built >=? 15) = false ->
      Notice.complianceNotes n = [])
  /\ (Exemptions.hasExemptions x = false -> (year - built >=? 15) = true ->
      Notice.complianceNotes n
      = ["Provide proper 90-day notice for rent increases";
         "Include AB 1482 compliance information in notice";
         "Keep documentation of inflation rate calculation"]).
Proof.
  cbv zeta. unfold generateRentCapNotice.
  change (isEligible (checkRentCapEligibility year built)) with (year - built >=? 15).
  set (x := checkAdditionalExemptions _ _ _ _).
  split; [|split; [|split; [|split]]].
  - destruct (negb (year - built >=? 15) || Exemptions.hasExemptions x);
      [destruct (Exemptions.hasExemptions x)|]; reflexivity.
  - destruct (negb (year - built >=? 15) || Exemptions.hasExemptions x);
      [destruct (Exemptions.hasExemptions x)|]; reflexivity.
  - intros H. rewrite H, orb_true_r. cbn [Notice.complianceNotes Notice.notice].
    split; [reflexivity|].
    intros reason I. rewrite fold_left_bullets.
    rewrite !in_app_iff. left; left; right.
    apply in_flat_map. exists reason. split; [exact I|]. simpl. auto.
  - intros H E. rewrite H, E. reflexivity.
  - intros H E. rewrite H, E. reflexivity.
Qed.

(** X5: a property built after 2009 is always reported exempt by
    [generateRentCapNotice], whatever the current year: the test is the fixed
    year 2009, not the age.  The notice lists "Recently constructed
    property" and advises legal counsel, also when the property is 15 years
    old or more and [checkRentCapEligibility] finds it eligible. *)
Theorem generateRentCapNotice_built_after_2009
  (year currentRent built : float) (label : string) (sf oo : option bool) :
  (built >? 2009) = true ->
  let n := generateRentCapNotice year currentRent built label sf oo in
  Notice.isEligible n = false
  /\ Notice.complianceNotes n = counsel_note
  /\ In (Lit "Recently constructed property") (Notice.notice n).
Proof.
  intros B. cbv zeta.
  pose proof (generateRentCapNotice_cases year currentRent built label sf oo)
    as (E & _ & X & _).
  cbv zeta in E, X. rewrite B in E, X.
  assert (I : In "Recently constructed property"
                (Exemptions.exemptionReasons
                   (checkAdditionalExemptions label (or_default sf false)
                      (or_default oo false) true)))
    by (apply checkAdditionalExemptions_In; right; left; split; reflexivity).
  pose proof (hasExemptions_In _ _ _ _ _ I) as H.
  destruct (X H) as [N L].
  rewrite E, H, andb_false_r.
  split; [reflexivity|]. split; [exact N|]. apply L, I.
Qed.

(** In 2026 a building of 2010 is 16 years old and eligible by age, yet its
    notice reports it exempt. *)
Lemma generateRentCapNotice_built_after_2009_witness :
  isEligible (checkRentCapEligibility 2026 2010) = true
  /\ Notice.isEligible
       (generateRentCapNotice 2026 2000 2010 "Apartment" None None) = false.
Proof.
  split; [reflexivity|].
  apply (generateRentCapNotice_built_after_2009 2026 2000 2010 "Apartment" None None).
  reflexivity.
Defined.

(** X6: the increase [generateRentCapNotice] returns depends on the rent and
    the age only.  For a property of 15 years or more it is
    [currentRent * ((5.0 + 3.4) / 100)], the module's own inflation rate, also
    when a further exemption makes the notice report the property exempt
    ([isEligible = false]); for a younger one it is 0.  The three notes on
    raising the rent are given exactly when [isEligible] is true. *)
Theorem generateRentCapNotice_increase
  (year currentRent built : float) (label : string) (sf oo : option bool) :
  let n := generateRentCapNotice year currentRent built label sf oo in
  ((year - built >=? 15) = true ->
   Notice.maxIncrease n = currentRent * ((5.0 + CURRENT_INFLATION_RATE) / 100))
  /\ ((year - built >=? 15) = false -> Notice.maxIncrease n = 0)
  /\ (Notice.isEligible n = true <-> Notice.complianceNotes n = increase_notes).
Proof.
  cbv zeta.
  pose proof (generateRentCapNotice_cases year currentRent built label sf oo)
    as (E & M & X & A & S).
  cbv zeta in E, M, X, A, S. rewrite M.
  unfold calculateMaxRentIncrease.
  change (isEligible (checkRentCapEligibility year built)) with (year - built >=? 15).
  split; [intros ->; reflexivity|]. split; [intros ->; reflexivity|].
  rewrite E.
  destruct (Exemptions.hasExemptions _) eqn:H.
  - rewrite (proj1 (X eq_refl)), andb_false_r. split; discriminate.
  - destruct (year - built >=? 15) eqn:G.
    + rewrite (S eq_refl eq_refl). split; reflexivity.
    + rewrite (A eq_refl eq_refl). split; discriminate.
Qed.

(** A hotel of 1960 let at 2000: reported exempt, with an increase of 168. *)
Lemma generateRentCapNotice_increase_witness :
  let n := generateRentCapNotice 2026 2000 1960 "Hotel" None None in
  Notice.isEligible n = false /\ Notice.maxIncrease n = 168.
Proof.
  pose proof (generateRentCapNotice_increase 2026 2000 1960 "Hotel" None None)
    as (M & _).
  split; [reflexivity|]. cbv zeta in M. rewrite (M eq_refl). reflexivity.
Defined.

Lemma young_is_recent_from_2024 cy yb :
  (2024 <= cy < 2200)%Z -> (1700 <= yb < 2200)%Z -> young_is_recent cy yb = true.
Proof.
  intros Hc Hy.
  assert (H : forallb (fun c => forallb (young_is_recent c) (years_between 1700 500))
                (years_between 2024 176) = true) by (vm_compute; reflexivity).
  apply (forallb_In _ _ yb (forallb_In _ _ cy H (years_between_In 2024 176 cy ltac:(lia)))).
  apply (years_between_In 1700 500 yb). lia.
Qed.

(** X7: from 2024 on, a property younger than 15 years was built after 2009,
    so on calendar years the notice never takes its age-only form: whenever
    it reports a property not eligible it lists at least one further
    exemption and advises legal counsel, and it is never without compliance
    notes. *)
Theorem generateRentCapNotice_from_2024
  (cy yb : Z) (currentRent : float) (label : string) (sf oo : option bool) :
  (2024 <= cy < 2200)%Z -> (1700 <= yb < 2200)%Z ->
  let n := generateRentCapNotice (year_number cy) currentRent (year_number yb)
             label sf oo in
  (Notice.isEligible n = false -> Notice.complianceNotes n = counsel_note)
  /\ (Notice.isEligible n = true -> Notice.complianceNotes n = increase_notes)
  /\ Notice.complianceNotes n <> [].
Proof.
  intros Hc Hy. cbv zeta.
  pose proof (generateRentCapNotice_cases (year_number cy) currentRent (year_number yb)
                label sf oo) as (E & _ & X & A & S).
  cbv zeta in E, X, A, S.
  pose proof (young_is_recent_from_2024 cy yb Hc Hy) as Y.
  unfold young_is_recent in Y.
  change (isEligible (checkRentCapEligibility (year_number cy) (year_number yb)))
    with (year_number cy - year_number yb >=? 15) in Y.
  rewrite E.
  destruct (Exemptions.hasExemptions _) eqn:H.
  - rewrite (proj1 (X eq_refl)), andb_false_r.
    split; [reflexivity|]. split; discriminate.
  - destruct (year_number cy - year_number yb >=? 15) eqn:G.
    + rewrite (S eq_refl eq_refl). split; [discriminate|]. split; [reflexivity|discriminate].
    + exfalso. simpl in Y. rewrite Y in H.
      assert (I : In "Recently constructed property"
                    (Exemptions.exemptionReasons
                       (checkAdditionalExemptions label (or_default sf false)
                          (or_default oo false) true)))
        by (apply checkAdditionalExemptions_In; right; left; split; reflexivity).
      rewrite (hasExemptions_In _ _ _ _ _ I) in H. discriminate.
Qed.

(** In 2026 a building of 2015: not eligible, and legal counsel is advised. *)
Lemma generateRentCapNotice_from_2024_witness :
  Notice.complianceNotes
    (generateRentCapNotice (year_number 2026) 2000 (year_number 2015) "Apartment"
       None None)
  = counsel_note.
Proof.
  pose proof (generateRentCapNotice_from_2024 2026 2015 2000 "Apartment" None None
                ltac:(lia) ltac:(lia)) as (C & _).
  apply C. reflexivity.
Defined.

(** ** The recommendation on a computed deal score *)

Lemma for_all_scores_spec test year p n :
  for_all_scores test = true ->
  test (calculatePriceAdvantage p n) (calculateSizeAdvantage p n)
       (calculateAgeAdvantage year p n) (calculateLocationBonus n)
       (calculateMarketTimingBonus n) = true.
Proof.
  unfold for_all_scores. intros H.
  pose proof (forallb_In _ _ _ H (calculatePriceAdvantage_values p n)) as H1.
  pose proof (forallb_In _ _ _ H1 (calculateSizeAdvantage_values p n)) as H2.
  pose proof (forallb_In _ _ _ H2 (calculateAgeAdvantage_values year p n)) as H3.
  pose proof (forallb_In _ _ _ H3 (calculateLocationBonus_values n)) as H4.
  exact (forallb_In _ _ _ H4 (calculateMarketTimingBonus_values n)).
Qed.

(** The bonus of a computed score never exceeds 5. *)
Lemma rentStabilizationBonus_not_above_5 year p n :
  (calculateRentStabilizationBonusValue year p n >? 5) = false.
Proof.
  rewrite calculateRentStabilizationBonusValue_cases.
  destruct (year - yearBuilt p >=? 15); [destruct (finite_nonzero _)|]; reflexivity.
Qed.

(** X8: on a score computed by [calculateDealScore] the recommendation never
    fails and never lists "Rent stabilization provides predictable cash
    flow": the rent-stabilization bonus is never above 5.  It lists at most
    four risks and at most three opportunities, and its recommendation is the
    one of the category of the total. *)
Theorem generateInvestmentRecommendation_on_score
  (year : float) (p : PropertyMetrics) (n : NeighborhoodData)
  (nearby : option (list PropertyMetrics)) :
  let d := calculateDealScore year p n nearby in
  exists r,
    generateInvestmentRecommendation year d p n = Some r
    /\ ~ In "Rent stabilization provides predictable cash flow"
           (Recommendation.opportunities r)
    /\ (List.length (Recommendation.opportunities r) <= 3)%nat
    /\ (List.length (Recommendation.risks r) <= 4)%nat
    /\ Recommendation.recommendation r
       = recommendation (getDealScoreCategory (totalScore d)).
Proof.
  cbv zeta. unfold generateInvestmentRecommendation.
  cbn [calculateDealScore breakdown nth_error app rentStabilizationBonus].
  rewrite rentStabilizationBonus_not_above_5.
  eexists. split; [reflexivity|].
  cbn [Recommendation.opportunities Recommendation.risks
       Recommendation.recommendation].
  split; [|split; [|split; [|reflexivity]]].
  - rewrite !In_push_if. simpl. intuition discriminate.
  - unfold push_if.
    repeat match goal with |- context [if ?c then _ else _] => destruct c end;
      cbn; lia.
  - unfold push_if.
    repeat match goal with |- context [if ?c then _ else _] => destruct c end;
      cbn; lia.
Qed.

Lemma priceStep_below_20 (r : float) :
  (priceStep r <? 20) = negb (r <=? 1.05).
Proof.
  unfold priceStep.
  destruct (r <=? 0.8) eqn:A1.
  { rewrite (leb_trans r 0.8 1.05 A1 eq_refl). reflexivity. }
  destruct (r <=? 0.9) eqn:A2.
  { rewrite (leb_trans r 0.9 1.05 A2 eq_refl). reflexivity. }
  destruct (r <=? 0.95) eqn:A3.
  { rewrite (leb_trans r 0.95 1.05 A3 eq_refl). reflexivity. }
  destruct (r <=? 1.0) eqn:A4.
  { rewrite (leb_trans r 1.0 1.05 A4 eq_refl). reflexivity. }
  destruct (r <=? 1.05) eqn:A5; [reflexivity|].
  destruct (r <=? 1.1); [reflexivity|].
  destruct (r <=? 1.2); reflexivity.
Qed.

(** X9: the risk "Property may be overpriced compared to neighborhood" is
    listed for a computed score exactly when the price-per-area ratio is not
    at most 1.05, that is when the property is more than 5% above the
    neighborhood median (or the ratio is NaN). *)
Theorem generateInvestmentRecommendation_overpriced
  (year : float) (p : PropertyMetrics) (n : NeighborhoodData)
  (nearby : option (list PropertyMetrics)) :
  let d := calculateDealScore year p n nearby in
  exists r,
    generateInvestmentRecommendation year d p n = Some r
    /\ (In "Property may be overpriced compared to neighborhood"
           (Recommendation.risks r)
        <-> (priceRatio p n <=? 1.05) = false).
Proof.
  cbv zeta. unfold generateInvestmentRecommendation.
  cbn [calculateDealScore breakdown nth_error app priceAdvantage].
  eexists. split; [reflexivity|].
  cbn [Recommendation.risks].
  rewrite calculatePriceAdvantage_priceStep, priceStep_below_20.
  rewrite !In_push_if. simpl.
  destruct (priceRatio p n <=? 1.05); simpl; intuition discriminate.
Qed.

Lemma category_excellent (s : float) :
  category (getDealScoreCategory s) = "Excellent Deal" -> (s >=? 90) = true.
Proof.
  unfold getDealScoreCategory.
  destruct (s >=? 90); [reflexivity|].
  destruct (s >=? 80); [discriminate|].
  destruct (s >=? 70); [discriminate|].
  destruct (s >=? 60); discriminate.
Qed.

(** X10: a score computed by [calculateDealScore] is an "Excellent Deal"
    only with full marks: the price advantage is 40, the size and age
    advantages 15, the location and timing bonuses 10, and the total is
    exactly 90. *)
Theorem excellent_deal_needs_full_marks
  (year : float) (p : PropertyMetrics) (n : NeighborhoodData)
  (nearby : option (list PropertyMetrics)) :
  let d := calculateDealScore year p n nearby in
  category (getDealScoreCategory (totalScore d)) = "Excellent Deal" ->
  priceAdvantage d = 40 /\ sizeAdvantage d = 15 /\ ageAdvantage d = 15
  /\ locationBonus d = 10 /\ marketTimingBonus d = 10
  /\ rentStabilizationBonus d = 0 /\ totalScore d = 90.
Proof.
  cbv zeta. intros C. apply category_excellent in C.
  change (rentStabilizationBonus (calculateDealScore year p n nearby))
    with (calculateRentStabilizationBonusValue year p n).
  assert (B : calculateRentStabilizationBonusValue year p n = 0).
  { pose proof (calculateRentStabilizationBonusValue_cases year p n) as E.
    destruct (year - yearBuilt p >=? 15); [|exact E].
    destruct (finite_nonzero _); [exact E|].
    rewrite (proj2 (totalScore_with_bonus year p n nearby) E) in C.
    discriminate. }
  pose proof (for_all_scores_spec full_marks_test year p n
                ltac:(vm_compute; reflexivity)) as T.
  unfold full_marks_test in T.
  rewrite totalScore_total_of, B in C |- *.
  rewrite C in T. simpl in T.
  rewrite !andb_true_iff, !FloatAxioms.Leibniz.eqb_spec in T.
  cbn [priceAdvantage sizeAdvantage ageAdvantage locationBonus marketTimingBonus
       calculateDealScore].
  tauto.
Qed.

(** The best house in the best neighborhood, in 2026. *)
Lemma excellent_deal_needs_full_marks_witness :
  let d := calculateDealScore 2026 best_house best_area None in
  category (getDealScoreCategory (totalScore d)) = "Excellent Deal"
  /\ totalScore d = 90.
Proof.
  split; [reflexivity|].
  apply (excellent_deal_needs_full_marks 2026 best_house best_area None).
  reflexivity.
Defined.

(** ** Floors and order of the sub-scores *)

(** X11: no sub-score reaches the floor 0 of its clamp: for every input the
    price advantage is at least 5, the size advantage at least 4.5, the age
    advantage at least 8, the location bonus at least 5 (no field lowers it
    below its base) and the market-timing bonus at least 3. *)
Theorem subscores_above_floor
  (year : float) (p : PropertyMetrics) (n : NeighborhoodData) :
  in_range 5 40 (calculatePriceAdvantage p n) = true
  /\ in_range 4.5 15 (calculateSizeAdvantage p n) = true
  /\ in_range 8 15 (calculateAgeAdvantage year p n) = true
  /\ in_range 5 10 (calculateLocationBonus n) = true
  /\ in_range 3 10 (calculateMarketTimingBonus n) = true.
Proof.
  split; [|split; [|split; [|split]]].
  - apply (forallb_In _ price_values); [reflexivity|].
    apply calculatePriceAdvantage_values.
  - apply (forallb_In _ size_values); [reflexivity|].
    apply calculateSizeAdvantage_values.
  - apply (forallb_In _ age_values); [reflexivity|].
    apply calculateAgeAdvantage_values.
  - apply (forallb_In _ location_values); [reflexivity|].
    apply calculateLocationBonus_values.
  - apply (forallb_In _ timing_values); [reflexivity|].
    apply calculateMarketTimingBonus_values.
Qed.

(** X12: all else equal, the size advantage orders the property types: a
    condominium and a multi-family property score the same, a townhouse at
    least as much, and a single-family home at least as much as a
    townhouse. *)
Theorem calculateSizeAdvantage_by_type (p : PropertyMetrics) (n : NeighborhoodData) :
  calculateSizeAdvantage (with_type condo p) n
  = calculateSizeAdvantage (with_type multi_family p) n
  /\ (calculateSizeAdvantage (with_type condo p) n
      <=? calculateSizeAdvantage (with_type townhouse p) n) = true
  /\ (calculateSizeAdvantage (with_type townhouse p) n
      <=? calculateSizeAdvantage (with_type single_family p) n) = true.
Proof.
  unfold calculateSizeAdvantage.
  cbn [with_type propertyType sqft beds baths].
  split; [reflexivity|].
  split; branches; reflexivity.
Qed.

(** ** The value the boost reports *)

(** A product that is not above zero stays so when multiplied by a positive
    finite number. *)
Lemma SFmul_not_positive (f : spec_float) (m : positive) (e : Z) :
  SFltb (S754_zero false) f = false ->
  SFltb (S754_zero false) (SFmul prec emax f (S754_finite false m e)) = false.
Proof.
  destruct f as [s|s| |s m' e']; simpl; trivial.
  - destruct s; [reflexivity|discriminate].
  - destruct s; [intros _|discriminate].
    apply signed_true_not_positive, binary_round_aux_signed.
Qed.

(** A number that is not below zero, times a negative finite number, is not
    above zero. *)
Lemma SFmul_nonneg_negative (f : spec_float) (m : positive) (e : Z) :
  SFleb (S754_zero false) f = true ->
  SFltb (S754_zero false) (SFmul prec emax f (S754_finite true m e)) = false.
Proof.
  destruct f as [s|s| |s m' e']; simpl; trivial.
  - destruct s; [discriminate|reflexivity].
  - destruct s; [discriminate|intros _].
    apply signed_true_not_positive, binary_round_aux_signed.
Qed.

(** X13: for an eligible property and a market rent that is not negative,
    the annual value and the five-year value that
    [calculateRentStabilizationBoost] reports are never above zero: with the
    module's inflation rate the "value advantage" its reasoning text quotes
    is a loss, or nothing. *)
Theorem boost_value_never_positive (year built rent rate : float) :
  (year - built >=? 15) = true -> (0 <=? rent) = true ->
  let b := calculateRentStabilizationBoost year built rent rate in
  (0 <? Boost.annualValue b) = false
  /\ (0 <? Boost.fiveYearValue b) = false
  /\ In (Fixed (Boost.annualValue b) 0) (Boost.reasoning b).
Proof.
  intros E R. cbv zeta.
  unfold calculateRentStabilizationBoost, checkRentCapEligibility.
  cbn [isEligible maxIncreasePercentage]. rewrite E.
  cbn [negb Boost.annualValue Boost.fiveYearValue Boost.reasoning].
  change (0.08 - (5.0 + CURRENT_INFLATION_RATE) / 100) with volatilityBenefit.
  rewrite FloatAxioms.leb_spec in R.
  change (Prim2SF 0) with (S754_zero false) in R.
  assert (A : SFltb (S754_zero false) (Prim2SF (rent * volatilityBenefit)) = false).
  { rewrite mul_spec.
    change (Prim2SF volatilityBenefit)
      with (S754_finite true 4611686018427392 (-60)).
    apply SFmul_nonneg_negative, R. }
  split; [|split].
  - rewrite FloatAxioms.ltb_spec. exact A.
  - rewrite FloatAxioms.ltb_spec, mul_spec.
    change (Prim2SF 0) with (S754_zero false).
    change (Prim2SF 5) with (S754_finite false 5629499534213120 (-50)).
    apply SFmul_not_positive, A.
  - simpl. auto 10.
Qed.

(** A market rent of 1500 on a house of 1960: a value of about -6 a year. *)
Lemma boost_value_never_positive_witness :
  let b := calculateRentStabilizationBoost 2026 1960 1500 0.084 in
  (0 <? Boost.annualValue b) = false /\ (Boost.annualValue b <? 0) = true.
Proof.
  pose proof (boost_value_never_positive 2026 1960 1500 0.084 eq_refl eq_refl)
    as (A & _).
  split; [exact A|reflexivity].
Defined.

(** ** The database functions *)

Module SchemaFacts.

Import QArith Lqa Schema.

#[local] Open Scope Q_scope.

Lemma LEAST_GREATEST_range (x : option Q) :
  0 <= LEAST 100.0 (GREATEST 0.0 x) <= 100.
Proof.
  unfold LEAST, GREATEST. destruct x as [v|].
  - destruct (Qle_bool 0.0 v) eqn:A.
    + apply Qle_bool_iff in A.
      destruct (Qle_bool v 100.0) eqn:B.
      * apply Qle_bool_iff in B. split; lra.
      * split; lra.
    + destruct (Qle_bool 0.0 100.0) eqn:B; split; lra.
  - destruct (Qle_bool 0.0 100.0) eqn:B; split; lra.
Qed.

Section Server.

Variable now_year : Z.
Variable numeric_div : Q -> Q -> Q.
Variable to_decimal_5_2 : Q -> Q.
Variable median_price_per_sqft_of : string -> option Q.

(** Whether the price ratio can be computed depends on the price, the
    floor area and the median only. *)
Lemma calculate_deal_score_cases
  (p_price : option Q) (p_sqft : option Z) (p_median : option Q)
  (p_year_built : option Z) (flag : option bool) :
  let fails :=
    p_price <> None /\ p_sqft = Some 0%Z /\ exists m, p_median = Some m /\ 0 < m in
  (fails
   /\ calculate_deal_score now_year numeric_div p_price p_sqft p_median
        p_year_built flag = division_by_zero)
  \/ (~ fails
      /\ exists s, calculate_deal_score now_year numeric_div p_price p_sqft p_median
                     p_year_built flag = Ok s
                   /\ 0 <= s <= 100).
Proof.
  cbv zeta. unfold calculate_deal_score, divide, bind.
  destruct p_median as [m|].
  - destruct (Qle_bool m 0) eqn:M; cbn [negb].
    + right. apply Qle_bool_iff in M. split.
      * intros (_ & _ & m' & E & P). injection E as <-. lra.
      * eexists. split; [reflexivity|apply LEAST_GREATEST_range].
    + assert (P : 0 < m).
      { destruct (Qlt_le_dec 0 m) as [L|L]; [exact L|].
        apply Qle_bool_iff in L. congruence. }
      assert (N : Qeq_bool m 0 = false).
      { destruct (Qeq_bool m 0) eqn:Z; [|reflexivity].
        apply Qeq_bool_iff in Z. lra. }
      destruct p_price as [x|].
      * destruct p_sqft as [z|]; cbn [option_map].
        -- destruct (Qeq_bool (inject_Z z) 0) eqn:Z.
           ++ left. split; [|reflexivity].
              split; [discriminate|]. split.
              ** apply Qeq_bool_iff in Z. unfold Qeq in Z. simpl in Z.
                 f_equal. lia.
              ** exists m. split; [reflexivity|exact P].
           ++ right. rewrite N. split.
              ** intros (_ & E & _). injection E as ->. discriminate.
              ** eexists. split; [reflexivity|apply LEAST_GREATEST_range].
        -- right. split.
           ++ intros (_ & E & _). discriminate.
           ++ eexists. split; [reflexivity|apply LEAST_GREATEST_range].
      * right. split.
        -- intros (C & _). congruence.
        -- destruct p_sqft; cbn [option_map]; eexists;
             (split; [reflexivity|apply LEAST_GREATEST_range]).
  - right. split.
    + intros (_ & _ & m & E & _). discriminate.
    + eexists. split; [reflexivity|apply LEAST_GREATEST_range].
Qed.


(** The trigger fails or not whatever the flag of the incoming row. *)
Lemma calculate_deal_score_flag
  (p_price : option Q) (p_sqft : option Z) (p_median : option Q)
  (p_year_built : option Z) (flag flag' : option bool) (s : Q) :
  calculate_deal_score now_year numeric_div p_price p_sqft p_median p_year_built flag
  = Ok s ->
  exists s',
    calculate_deal_score now_year numeric_div p_price p_sqft p_median p_year_built
      flag' = Ok s'.
Proof.
  intros E.
  destruct (calculate_deal_score_cases p_price p_sqft p_median p_year_built flag)
    as [[F E']|[F _]]; [congruence|].
  destruct (calculate_deal_score_cases p_price p_sqft p_median p_year_built flag')
    as [[F' _]|[_ [s' [E' _]]]]; [contradiction|].
  exists s'. exact E'.
Qed.

(** X16: the trigger computes [deal_score] from the [is_rent_stabilized] of
    the incoming row and only then derives that flag from [year_built]: the
    stored score goes with the old flag.  Run again on its own output the
    trigger succeeds and may store another score; run a third time it
    changes nothing. *)
Theorem update_property_metrics_settles (NEW r1 : properties) :
  update_property_metrics now_year numeric_div to_decimal_5_2
    median_price_per_sqft_of NEW = Ok r1 ->
  is_rent_stabilized r1 = check_rent_cap_eligibility now_year (year_built NEW)
  /\ (exists median s,
        (forall i m, neighborhood_id NEW = Some i ->
                     median_price_per_sqft_of i = Some m -> median = Some m)
        /\ calculate_deal_score now_year numeric_div (price NEW) (sqft NEW) median
             (year_built NEW) (is_rent_stabilized NEW) = Ok s
        /\ deal_score r1 = Some (to_decimal_5_2 s))
  /\ exists r2,
       update_property_metrics now_year numeric_div to_decimal_5_2
         median_price_per_sqft_of r1 = Ok r2
       /\ update_property_metrics now_year numeric_div to_decimal_5_2
            median_price_per_sqft_of r2 = Ok r2.
Proof.
  unfold update_property_metrics.
  set (lookup := fun NEW : properties =>
                   match neighborhood_id NEW with
                   | Some i => median_price_per_sqft_of i
                   | None => None
                   end).
  change (match neighborhood_id NEW with
          | Some i => median_price_per_sqft_of i
          | None => None
          end) with (lookup NEW).
  destruct (match lookup NEW with
            | Some m => Ok (Some m)
            | None => divide numeric_div (price NEW) (option_map inject_Z (sqft NEW))
            end) as [median|] eqn:M; cbn [bind]; [|discriminate].
  destruct (calculate_deal_score now_year numeric_div (price NEW) (sqft NEW) median
              (year_built NEW) (is_rent_stabilized NEW)) as [s|] eqn:S;
    cbn [bind]; [|discriminate].
  intros [= <-].
  split; [reflexivity|].
  split.
  { exists median, s. split; [|split; [exact S|reflexivity]].
    intros i m I L. unfold lookup in M. rewrite I, L in M. congruence. }
  cbn [set_metrics neighborhood_id price sqft year_built is_rent_stabilized].
  change (match neighborhood_id NEW with
          | Some i => median_price_per_sqft_of i
          | None => None
          end) with (lookup NEW).
  rewrite M. cbn [bind].
  destruct (calculate_deal_score_flag _ _ _ _ _
              (check_rent_cap_eligibility now_year (year_built NEW)) _ S)
    as [s' S'].
  rewrite S'. cbn [bind].
  eexists. split; [reflexivity|].
  cbn [set_metrics neighborhood_id price sqft year_built is_rent_stabilized].
  change (match neighborhood_id NEW with
          | Some i => median_price_per_sqft_of i
          | None => None
          end) with (lookup NEW).
  rewrite M. cbn [bind]. rewrite S'. reflexivity.
Qed.

End Server.


(** The house of 1960: 71 after the first run, 91 after the second. *)
Lemma update_property_metrics_settles_witness :
  let r1 := SchemaSamples.after (SchemaSamples.run SchemaSamples.old_house) in
  exists r2,
    SchemaSamples.run r1 = Ok r2 /\ SchemaSamples.run r2 = Ok r2
    /\ option_map Qred (deal_score r1) = Some 71
    /\ option_map Qred (deal_score r2) = Some 91.
Proof.
  cbv zeta.
  destruct (update_property_metrics_settles 2026 Qdiv (fun q => q)
              (fun _ => Some 500) SchemaSamples.old_house
              (SchemaSamples.after (SchemaSamples.run SchemaSamples.old_house))
              eq_refl) as (_ & _ & r2 & R1 & R2).
  exists r2. split; [exact R1|]. split; [exact R2|].
  split; [vm_compute; reflexivity|].
  vm_compute in R1. injection R1 as <-. reflexivity.
Defined.

(** X14: the database and the helper disagree on a property that is exactly
    15 years old.  [check_rent_cap_eligibility] asks for
    [year_built < year - 15], the helper's [checkRentCapEligibility] for an
    age of at least 15: on calendar years the database finds a property
    eligible exactly when the helper does and the age is not 15. *)
Theorem check_rent_cap_eligibility_vs_helper (cy yb : Z) :
  (1900 <= cy < 2200)%Z -> (1700 <= yb < 2200)%Z ->
  check_rent_cap_eligibility cy (Some yb)
  = Some (RentCap.isEligible
            (checkRentCapEligibility (year_number cy) (year_number yb))
          && negb (cy - yb =? 15)%Z).
Proof.
  intros Hc Hy. unfold check_rent_cap_eligibility. cbn [option_map]. f_equal.
  rewrite (eligibility_on_calendar_years cy yb Hc Hy).
  destruct (yb <? cy - 15)%Z eqn:A, (15 <=? cy - yb)%Z eqn:B,
    (cy - yb =? 15)%Z eqn:C; try reflexivity; exfalso;
    try (apply Z.ltb_lt in A); try (apply Z.ltb_ge in A);
    try (apply Z.leb_le in B); try (apply Z.leb_gt in B);
    try (apply Z.eqb_eq in C); try (apply Z.eqb_neq in C); lia.
Qed.

(** In 2026 a building of 2011: eligible for the helper, not for the
    database. *)
Lemma check_rent_cap_eligibility_vs_helper_witness :
  check_rent_cap_eligibility 2026 (Some 2011%Z) = Some false
  /\ RentCap.isEligible (checkRentCapEligibility (year_number 2026) (year_number 2011))
     = true.
Proof.
  split; [|reflexivity].
  rewrite (check_rent_cap_eligibility_vs_helper 2026 2011 ltac:(lia) ltac:(lia)).
  reflexivity.
Defined.

End SchemaFacts.

(** ** The filters of the discovery page *)

Lemma filter_when {A} (c : bool) (f : A -> bool) (l : list A) :
  (if c then filter f l else l) = filter (fun x => negb c || f x) l.
Proof.
  destruct c; simpl; [reflexivity|].
  induction l as [|x l IH]; simpl; congruence.
Qed.

Lemma filter_twice {A} (f g : A -> bool) (l : list A) :
  filter g (filter f l) = filter (fun x => f x && g x) l.
Proof.
  induction l as [|x l IH]; simpl; [reflexivity|].
  destruct (f x); simpl; [destruct (g x)|]; congruence.
Qed.



Lemma filter_none {A} (f : A -> bool) (l : list A) :
  (forall x, f x = false) -> filter f l = [].
Proof.
  intros H. induction l as [|x l IH]; simpl; [reflexivity|].
  rewrite H, IH. reflexivity.
Qed.

Lemma applyFilters_filter (Number : string -> float)
  (properties : list Discovery.Property) (st : Discovery.Filters) :
  Discovery.applyFilters Number properties st = filter (passes Number st) properties.
Proof.
  unfold Discovery.applyFilters. cbv zeta.
  rewrite !filter_when, !filter_twice, !negb_involutive.
  apply filter_ext. intros p. unfold passes.
  rewrite <- !andb_assoc. reflexivity.
Qed.


Lemma leb_nan_r (x y : float) : is_nan y = true -> (y <=? x) = false /\ (x <=? y) = false.
Proof.
  intros H. apply is_nan_spec in H.
  rewrite !FloatAxioms.leb_spec, H. unfold SFleb.
  destruct (Prim2SF x); split; reflexivity.
Qed.

(** X18: a minimum price that is not a number empties the list: if the
    field is not empty and [Number] makes NaN of it, no property passes,
    whatever its price. *)
Theorem applyFilters_min_not_a_number (Number : string -> float)
  (properties : list Discovery.Property) (st : Discovery.Filters) :
  nonempty (Discovery.PriceRange.min (Discovery.priceRange st)) = true ->
  is_nan (Number (Discovery.PriceRange.min (Discovery.priceRange st))) = true ->
  Discovery.applyFilters Number properties st = [].
Proof.
  intros E N. rewrite applyFilters_filter.
  apply filter_none. intros p. unfold passes.
  rewrite E, (proj1 (leb_nan_r (Discovery.price p) _ N)).
  cbn [negb orb]. rewrite andb_false_r. reflexivity.
Qed.

(** "abc" typed as minimum price, with a conversion that knows no number. *)
Lemma applyFilters_min_not_a_number_witness :
  Discovery.applyFilters (fun _ => nan) [listing (Some 71); listing None]
    (with_min_price "abc" Discovery.initial) = [].
Proof.
  apply applyFilters_min_not_a_number; reflexivity.
Defined.

(** X19: the badge of the discovery page follows the bands of
    [getDealScoreCategory]: for a score that is neither 0 nor NaN it is
    green exactly for a great or an excellent deal, yellow exactly for an
    average or a good one, and red exactly for a poor one.  A missing score,
    0 and NaN get the gray badge. *)
Theorem getDealScoreColor_bands (s : float) :
  ToBoolean s = true ->
  let c := category (getDealScoreCategory s) in
  let badge := Discovery.getDealScoreColor (Some s) in
  (badge = "bg-green-500" <-> c = "Great Deal" \/ c = "Excellent Deal")
  /\ (badge = "bg-yellow-500" <-> c = "Average Deal" \/ c = "Good Deal")
  /\ (badge = "bg-red-500" <-> c = "Poor Deal")
  /\ badge <> "bg-gray-500".
Proof.
  intros T. cbv zeta.
  unfold Discovery.getDealScoreColor, getDealScoreCategory, truthy.
  rewrite T. cbn [negb].
  destruct (s >=? 90) eqn:A.
  { rewrite (leb_trans 80 90 s eq_refl A). cbn.
    repeat split; try discriminate; intuition discriminate. }
  destruct (s >=? 80) eqn:B.
  { cbn. repeat split; try discriminate; intuition discriminate. }
  destruct (s >=? 70) eqn:C.
  { rewrite (leb_trans 60 70 s eq_refl C). cbn.
    repeat split; try discriminate; intuition discriminate. }
  destruct (s >=? 60) eqn:D;
    cbn; repeat split; try discriminate; intuition discriminate.
Qed.

(** A score of 85: a great deal, green; no score, or 0: gray. *)
Lemma getDealScoreColor_bands_witness :
  Discovery.getDealScoreColor (Some 85) = "bg-green-500"
  /\ Discovery.getDealScoreColor None = "bg-gray-500"
  /\ Discovery.getDealScoreColor (Some 0) = "bg-gray-500".
Proof.
  pose proof (getDealScoreColor_bands 85 eq_refl) as (G & _).
  split; [apply G; left; reflexivity|]. split; reflexivity.
Defined.
